(** * The stream-to-transcript interpreter of [simple-chat.tsx]

    A shallow embedding of [handleSubmit] (frontend/app/simple-chat.tsx):
    the read loop over the response body, the split of every decoded
    chunk into lines, the [data: ] filter, the JSON decoding, the
    tool-call annotation matcher and the updates of the [messages]
    state, followed by the properties of the specification that the
    code has and the ones it has not.

    Conventions of the embedding.
    - A JavaScript string is a [string]; one [ascii] stands for one
      UTF-16 code unit below 256.  A chunk is the text that
      [decoder.decode(value)] returned.
    - [setMessages(f)] is read as the application of [f] to the current
      transcript at the place of the call, with the values that the
      variables of the closure have there, calls taking effect in
      program order.  The in-place writes to [lastMessage] then are
      updates of the last element of the list.
    - [JSON.parse] and [new Date()] belong to the environment: they are
      variables of the sections below ([JSON_parse], [now]).
    - A thrown exception is a value of [Completion] that carries the
      state reached when it was thrown. *)

From Stdlib Require Import String Ascii List Bool Arith Lia ZArith.
From Stdlib Require Import DecimalString.
Import ListNotations.
Open Scope list_scope.
Open Scope string_scope.
Set Warnings "-register-all".

(* ================================================================= *)
(** ** JavaScript string built-ins used by the component *)

Module Js.

Definition LF : ascii := ascii_of_nat 10.

(** [s.startsWith(p)] *)
Fixpoint startsWith (s p : string) {struct p} : bool :=
  match p with
  | EmptyString => true
  | String a p' =>
      match s with
      | EmptyString => false
      | String b s' => Ascii.eqb a b && startsWith s' p'
      end
  end.

(** [s.slice(n)] for a non-negative [n] *)
Fixpoint slice (n : nat) (s : string) : string :=
  match n with
  | O => s
  | S k => match s with
           | EmptyString => EmptyString
           | String _ r => slice k r
           end
  end.

(** [s.slice(0, n)] for a non-negative [n] *)
Fixpoint take (n : nat) (s : string) : string :=
  match n with
  | O => EmptyString
  | S k => match s with
           | EmptyString => EmptyString
           | String c r => String c (take k r)
           end
  end.

(** [s.indexOf(sub)]; [None] is [-1]. *)
Fixpoint indexOf (s sub : string) : option nat :=
  if startsWith s sub then Some O
  else match s with
       | EmptyString => None
       | String _ r => option_map S (indexOf r sub)
       end.

(** [s.includes(sub)] *)
Fixpoint includes (s sub : string) : bool :=
  startsWith s sub ||
  match s with
  | EmptyString => false
  | String _ r => includes r sub
  end.

(** Puts a character in front of the first piece of a split. *)
Definition cons_head (c : ascii) (l : list string) : list string :=
  match l with
  | [] => [String c EmptyString]
  | h :: t => String c h :: t
  end.

(** [s.split(sep)] for a non-empty separator.  The scan goes left to
    right; [skip] counts the characters of a separator just matched that
    are still to be passed over. *)
Fixpoint split_go (sep : string) (skip : nat) (s : string) : list string :=
  match s with
  | EmptyString => [EmptyString]
  | String c r =>
      match skip with
      | S k => split_go sep k r
      | O =>
          if startsWith s sep
          then EmptyString :: split_go sep (String.length sep - 1) r
          else cons_head c (split_go sep 0 r)
      end
  end.

Definition split (sep s : string) : list string := split_go sep 0 s.

(** [l.join(sep)] *)
Definition join (sep : string) (l : list string) : string :=
  String.concat sep l.

(** White space and line terminators removed by [trim], among the code
    units below 256: TAB, LF, VT, FF, CR, SP and NBSP. *)
Definition isWhiteSpace (c : ascii) : bool :=
  let n := nat_of_ascii c in
  ((9 <=? n)%nat && (n <=? 13)%nat) || (n =? 32)%nat || (n =? 160)%nat.

Fixpoint trimStart (s : string) : string :=
  match s with
  | EmptyString => EmptyString
  | String c r => if isWhiteSpace c then trimStart r else s
  end.

Fixpoint trimEnd (s : string) : string :=
  match s with
  | EmptyString => EmptyString
  | String c r =>
      match trimEnd r with
      | EmptyString => if isWhiteSpace c then EmptyString
                       else String c EmptyString
      | r' => String c r'
      end
  end.

(** [s.trim()] *)
Definition trim (s : string) : string := trimEnd (trimStart s).

(** Truthiness of a string: [!!s] *)
Definition nonEmpty (s : string) : bool :=
  match s with
  | EmptyString => false
  | String _ _ => true
  end.

(** Decimal rendering of a non-negative integer in a template literal. *)
Definition ofNat (n : nat) : string :=
  NilZero.string_of_uint (Nat.to_uint n).

End Js.

(* ================================================================= *)
(** ** The annotation pattern [/\[Calling tool: ([^\]]+)\]/] *)

Module Pattern.

Definition marker : string := "[Calling tool:".
Definition opening : string := "[Calling tool: ".

(** The greedy run [[^\]]*] followed by ["]"]: the characters up to the
    first closing bracket, and nothing when the text ends before one. *)
Fixpoint upToBracket (s : string) : option string :=
  match s with
  | EmptyString => None
  | String c r =>
      if Ascii.eqb "]" c then Some EmptyString
      else match upToBracket r with
           | Some g => Some (String c g)
           | None => None
           end
  end.

(** An attempt at one start position: the opening, then one character
    or more other than a closing bracket, then the closing bracket.
    The group is what is returned. *)
Definition matchHere (s : string) : option string :=
  if Js.startsWith s opening then
    match upToBracket (Js.slice (String.length opening) s) with
    | Some g => if Js.nonEmpty g then Some g else None
    | None => None
    end
  else None.

(** [content.match(/\[Calling tool: ([^\]]+)\]/)]: the leftmost start
    position with a match wins; the result is [toolCallMatch[1]], and
    [None] stands for [null]. *)
Fixpoint regexMatch (s : string) : option string :=
  match matchHere s with
  | Some g => Some g
  | None =>
      match s with
      | EmptyString => None
      | String _ r => regexMatch r
      end
  end.

End Pattern.

(* ================================================================= *)
(** ** JSON values as [JSON.parse] returns them *)

Module Json.

(** A number is carried by its JavaScript rendering ([String(n)]), which
    is all this code can observe of it: ["0"] for both zeros. *)
Inductive value : Type :=
| JNull
| JBool (b : bool)
| JNum (repr : string)
| JStr (s : string)
| JArr (elements : list value)
| JObj (fields : list (string * value)).

Fixpoint lookup (k : string) (fields : list (string * value)) : option value :=
  match fields with
  | [] => None
  | (k', v) :: rest => if String.eqb k k' then Some v else lookup k rest
  end.

(** [v.k] for a property name that no prototype defines; [None] is
    [undefined].  The receiver is neither [null] nor [undefined]. *)
Definition prop (k : string) (v : value) : option value :=
  match v with
  | JObj fields => lookup k fields
  | _ => None
  end.

(** [v[0]] on a receiver that is neither [null] nor [undefined] *)
Definition index0 (v : value) : option value :=
  match v with
  | JArr (x :: _) => Some x
  | JStr (String c _) => Some (JStr (String c EmptyString))
  | JObj fields => lookup "0" fields
  | _ => None
  end.

(** One link [?.] of an optional chain: [undefined] and [null] give
    [undefined] without touching the property. *)
Definition optChain (f : value -> option value) (o : option value)
  : option value :=
  match o with
  | None => None
  | Some JNull => None
  | Some v => f v
  end.

(** [parsed.choices?.[0]?.delta?.content]; the outer [None] is the
    TypeError of reading [choices] from [null]. *)
Definition deltaContent (parsed : value) : option (option value) :=
  match parsed with
  | JNull => None
  | _ =>
      Some (optChain (prop "content")
             (optChain (prop "delta")
               (optChain index0 (prop "choices" parsed))))
  end.

(** Truthiness of a value in the condition of an [if] *)
Definition truthy (o : option value) : bool :=
  match o with
  | None => false
  | Some JNull => false
  | Some (JBool b) => b
  | Some (JNum repr) => negb (String.eqb repr "0")
  | Some (JStr s) => Js.nonEmpty s
  | Some (JArr _) => true
  | Some (JObj _) => true
  end.

(** [String(v)], as the [+=] on a string applies it; an array is its
    elements joined by commas, [null] elements contributing nothing. *)
Fixpoint toString (v : value) : string :=
  match v with
  | JNull => "null"
  | JBool true => "true"
  | JBool false => "false"
  | JNum repr => repr
  | JStr s => s
  | JArr l =>
      (fix elems (l : list value) : string :=
         match l with
         | [] => EmptyString
         | x :: rest =>
             let here := match x with JNull => EmptyString | _ => toString x end in
             match rest with
             | [] => here
             | _ :: _ => here ++ "," ++ elems rest
             end
         end) l
  | JObj _ => "[object Object]"
  end.

(** [content.includes('[Calling tool:')]: the substring test of a
    string, the membership test of an array, and the TypeError ([None])
    of calling what is not a function on anything else. *)
Definition includesMarker (content : value) : option bool :=
  match content with
  | JStr s => Some (Js.includes s Pattern.marker)
  | JArr l =>
      Some (existsb (fun x => match x with
                              | JStr s => String.eqb s Pattern.marker
                              | _ => false
                              end) l)
  | _ => None
  end.

End Json.

(* ================================================================= *)
(** ** A JSON decoder to run the interpreter on concrete lines

    The theorems below hold for every [JSON_parse].  To evaluate the
    interpreter on the lines of a concrete stream, this module decodes
    the part of JSON that the endpoint sends: objects, arrays, strings
    with the two-character escapes, integers and the three literals. *)

Module Wire.

Definition DQ : ascii := ascii_of_nat 34.
Definition BS : ascii := ascii_of_nat 92.

Definition isBlank (c : ascii) : bool :=
  let n := nat_of_ascii c in
  (n =? 32)%nat || (n =? 9)%nat || (n =? 10)%nat || (n =? 13)%nat.

Fixpoint skipBlanks (s : string) : string :=
  match s with
  | EmptyString => EmptyString
  | String c r => if isBlank c then skipBlanks r else s
  end.

Definition unescape (c : ascii) : option ascii :=
  if Ascii.eqb c DQ then Some DQ
  else if Ascii.eqb c BS then Some BS
  else if Ascii.eqb c "/" then Some "/"%char
  else if Ascii.eqb c "b" then Some (ascii_of_nat 8)
  else if Ascii.eqb c "f" then Some (ascii_of_nat 12)
  else if Ascii.eqb c "n" then Some (ascii_of_nat 10)
  else if Ascii.eqb c "r" then Some (ascii_of_nat 13)
  else if Ascii.eqb c "t" then Some (ascii_of_nat 9)
  else None.

(** The characters of a string after its opening quote, and what
    follows the closing quote. *)
Fixpoint stringBody (s : string) : option (string * string) :=
  match s with
  | EmptyString => None
  | String c r =>
      if Ascii.eqb c DQ then Some (EmptyString, r)
      else if Ascii.eqb c BS then
        match r with
        | EmptyString => None
        | String e r' =>
            match unescape e, stringBody r' with
            | Some c', Some (t, rest) => Some (String c' t, rest)
            | _, _ => None
            end
        end
      else if (nat_of_ascii c <? 32)%nat then None
      else match stringBody r with
           | Some (t, rest) => Some (String c t, rest)
           | None => None
           end
  end.

Definition isDigit (c : ascii) : bool :=
  let n := nat_of_ascii c in (48 <=? n)%nat && (n <=? 57)%nat.

Fixpoint digits (s : string) : string * string :=
  match s with
  | EmptyString => (EmptyString, EmptyString)
  | String c r =>
      if isDigit c then let (d, rest) := digits r in (String c d, rest)
      else (EmptyString, s)
  end.

(** An integer without a leading zero; the rendering of [-0] is [0]. *)
Definition integer (s : string) : option (Json.value * string) :=
  let (negative, body) :=
    match s with
    | String c r => if Ascii.eqb c "-" then (true, r) else (false, s)
    | EmptyString => (false, s)
    end in
  match digits body with
  | (EmptyString, _) => None
  | (String d EmptyString, rest) =>
      Some (Json.JNum (if negative && Ascii.eqb d "0"
                       then String d EmptyString
                       else if negative then String "-" (String d EmptyString)
                       else String d EmptyString), rest)
  | (String d ds, rest) =>
      if Ascii.eqb d "0" then None
      else Some (Json.JNum (if negative then String "-" (String d ds)
                            else String d ds), rest)
  end.

Definition literal (word : string) (v : Json.value) (s : string)
  : option (Json.value * string) :=
  if Js.startsWith s word then Some (v, Js.slice (String.length word) s)
  else None.

Fixpoint value (fuel : nat) (s : string) : option (Json.value * string) :=
  match fuel with
  | O => None
  | S f =>
      match skipBlanks s with
      | EmptyString => None
      | String c r =>
          if Ascii.eqb c DQ then
            match stringBody r with
            | Some (t, rest) => Some (Json.JStr t, rest)
            | None => None
            end
          else if Ascii.eqb c "[" then
            match skipBlanks r with
            | String c' r' =>
                if Ascii.eqb c' "]" then Some (Json.JArr [], r')
                else match elements f r with
                     | Some (vs, rest) => Some (Json.JArr vs, rest)
                     | None => None
                     end
            | EmptyString => None
            end
          else if Ascii.eqb c "{" then
            match skipBlanks r with
            | String c' r' =>
                if Ascii.eqb c' "}" then Some (Json.JObj [], r')
                else match members f r with
                     | Some (kvs, rest) => Some (Json.JObj (rev kvs), rest)
                     | None => None
                     end
            | EmptyString => None
            end
          else if Ascii.eqb c "n" then literal "null" Json.JNull (String c r)
          else if Ascii.eqb c "t" then
            literal "true" (Json.JBool true) (String c r)
          else if Ascii.eqb c "f" then
            literal "false" (Json.JBool false) (String c r)
          else integer (String c r)
      end
  end
with elements (fuel : nat) (s : string)
  : option (list Json.value * string) :=
  match fuel with
  | O => None
  | S f =>
      match value f s with
      | None => None
      | Some (v, rest) =>
          match skipBlanks rest with
          | String c r =>
              if Ascii.eqb c "]" then Some ([v], r)
              else if Ascii.eqb c "," then
                match elements f r with
                | Some (vs, rest') => Some (v :: vs, rest')
                | None => None
                end
              else None
          | EmptyString => None
          end
      end
  end
with members (fuel : nat) (s : string)
  : option (list (string * Json.value) * string) :=
  match fuel with
  | O => None
  | S f =>
      match skipBlanks s with
      | String q r =>
          if Ascii.eqb q DQ then
            match stringBody r with
            | None => None
            | Some (k, afterKey) =>
                match skipBlanks afterKey with
                | String colon r1 =>
                    if Ascii.eqb colon ":" then
                      match value f r1 with
                      | None => None
                      | Some (v, rest) =>
                          match skipBlanks rest with
                          | String c r2 =>
                              if Ascii.eqb c "}" then Some ([(k, v)], r2)
                              else if Ascii.eqb c "," then
                                match members f r2 with
                                | Some (kvs, rest') =>
                                    Some ((k, v) :: kvs, rest')
                                | None => None
                                end
                              else None
                          | EmptyString => None
                          end
                      end
                    else None
                | EmptyString => None
                end
            end
          else None
      | EmptyString => None
      end
  end.

Definition parse (s : string) : option Json.value :=
  match value (2 * String.length s + 2) s with
  | Some (v, rest) =>
      match skipBlanks rest with
      | EmptyString => Some v
      | String _ _ => None
      end
  | None => None
  end.

Definition quoted (s : string) : string :=
  String DQ (s ++ String DQ EmptyString).

(** The payload [{"choices":[{"delta":{"content":c}}]}] for a [c]
    without quote, backslash or control character. *)
Definition payload (c : string) : string :=
  "{" ++ quoted "choices" ++ ":[{" ++ quoted "delta" ++ ":{"
  ++ quoted "content" ++ ":" ++ quoted c ++ "}}]}".

(** The line [data: {"choices":[{"delta":{"content":c}}]}] *)
Definition event (c : string) : string := "data: " ++ payload c.

(** The line of an event whose content is the JSON text [json]. *)
Definition eventWith (json : string) : string :=
  "data: {" ++ quoted "choices" ++ ":[{" ++ quoted "delta" ++ ":{"
  ++ quoted "content" ++ ":" ++ json ++ "}}]}".

(** The line of an event whose delta is the JSON text [json]. *)
Definition eventOfDelta (json : string) : string :=
  "data: {" ++ quoted "choices" ++ ":[{" ++ quoted "delta" ++ ":" ++ json
  ++ "}]}".

(** A clock that advances by one at every reading. *)
Definition clock (n : nat) : Z := Z.of_nat n.

End Wire.

(* ================================================================= *)
(** ** The data of the component *)

Inductive Role : Type := user | assistant | system.

Record ToolCall : Type := mkToolCall {
  name : string;
  description : string;
  callTimestamp : Z
}.

(** [toolCalls] is optional in the interface: [None] is [undefined]. *)
Record Message : Type := mkMessage {
  role : Role;
  content : string;
  timestamp : Z;
  toolCalls : option (list ToolCall)
}.

Record ChatSettings : Type := mkSettings {
  domain : string;
  numHypotheses : nat;
  researchIdea : string
}.

(** The state of the component together with the two locals of the
    running [handleSubmit]; [dates] counts the [Date] objects made so
    far. *)
Record State : Type := mkState {
  messages : list Message;
  isStreaming : bool;
  settings : ChatSettings;
  assistantMessage : string;
  hasSeenToolCalls : bool;
  dates : nat
}.

(** What a [throw] carries: an [Error] with its message, or some other
    value. *)
Inductive Exception : Type :=
| ErrorObject (message : string)
| OtherValue.

(** One [await reader.read()] that is not the end of the body: a
    fragment, or the rejection of the read. *)
Inductive Read : Type :=
| Fragment (chunk : string)
| ReadFailure (e : Exception).

(** What [await fetch(...)] gives: a rejection, or a response with its
    [ok] flag, its status and its body ([None] when [response.body] is
    [null]); the body is the reads up to its end. *)
Inductive FetchOutcome : Type :=
| FetchRejected (e : Exception)
| Response (ok : bool) (status : nat) (body : option (list Read)).

(** A statement list that ends normally or by a [throw], with the state
    it reached. *)
Inductive Completion : Type :=
| Normal (st : State)
| Thrown (st : State).

Definition eqRole (a b : Role) : bool :=
  match a, b with
  | user, user | assistant, assistant | system, system => true
  | _, _ => false
  end.

Definition withMessages (ms : list Message) (st : State) : State :=
  mkState ms (isStreaming st) (settings st)
          (assistantMessage st) (hasSeenToolCalls st) (dates st).

Definition withIsStreaming (b : bool) (st : State) : State :=
  mkState (messages st) b (settings st)
          (assistantMessage st) (hasSeenToolCalls st) (dates st).

Definition withSettings (s : ChatSettings) (st : State) : State :=
  mkState (messages st) (isStreaming st) s
          (assistantMessage st) (hasSeenToolCalls st) (dates st).

Definition withAssistantMessage (a : string) (st : State) : State :=
  mkState (messages st) (isStreaming st) (settings st)
          a (hasSeenToolCalls st) (dates st).

Definition withHasSeenToolCalls (b : bool) (st : State) : State :=
  mkState (messages st) (isStreaming st) (settings st)
          (assistantMessage st) b (dates st).

Definition tick (st : State) : State :=
  mkState (messages st) (isStreaming st) (settings st)
          (assistantMessage st) (hasSeenToolCalls st) (S (dates st)).

(** The write [lastMessage.field = ...] inside an updater: [f] is
    applied to the last element, the others are kept. *)
Fixpoint updateLast (f : Message -> Message) (ms : list Message)
  : list Message :=
  match ms with
  | [] => []
  | [m] => [f m]
  | m :: rest => m :: updateLast f rest
  end.

(** [newMessages[newMessages.length - 1]]; [None] is [undefined]. *)
Fixpoint lastMessage (ms : list Message) : option Message :=
  match ms with
  | [] => None
  | [m] => Some m
  | _ :: rest => lastMessage rest
  end.

(** [const [toolName, ...descParts] = toolCallText.split(' - ')] and
    [descParts.join(' - ') || 'Running...'] *)
Definition extractToolCall (toolCallText : string) : string * string :=
  match Js.split " - " toolCallText with
  | [] => (EmptyString, "Running...")
  | toolName :: descParts =>
      let joined := Js.join " - " descParts in
      (toolName, if Js.nonEmpty joined then joined else "Running...")
  end.

(** The text compared by the duplicate check: [`${n} - ${d}`] *)
Definition callText (n d : string) : string := n ++ " - " ++ d.

Definition isDuplicate (calls : list ToolCall) (toolCallText : string) : bool :=
  existsb (fun call =>
             String.eqb (callText (name call) (description call)) toolCallText)
          calls.

(** [chunk.split('\n')] *)
Definition linesOf (chunk : string) : list string :=
  Js.split (String Js.LF EmptyString) chunk.

(** The line sequence that the [for] loop sees over the reads of a
    body: every fragment is split by itself. *)
Definition linesRead (fragments : list string) : list string :=
  flat_map linesOf fragments.


(** The text of the whole body. *)
Definition wholeBody (fragments : list string) : string :=
  String.concat EmptyString fragments.

(** [handleClear], lines 196-199. *)
Definition handleClear (st : State) : State :=
  withSettings (mkSettings (domain (settings st))
                           (numHypotheses (settings st)) EmptyString)
               (withMessages [] st).

(** The tool calls of a message, [undefined] counting as none. *)
Definition callsOf (m : Message) : list ToolCall :=
  match toolCalls m with
  | Some l => l
  | None => []
  end.

(** The pair under which two tool calls are compared. *)
Definition callKey (call : ToolCall) : string * string :=
  (Js.trim (name call), Js.trim (description call)).

(** The call is stored with its name and description trimmed. *)
Definition trimmedCall (call : ToolCall) : Prop :=
  Js.trim (name call) = name call /\
  Js.trim (description call) = description call.

(** The tool calls of the message are stored trimmed, and no two of them
    have the same (name, description) pair. *)
Definition callsDistinct (m : Message) : Prop :=
  Forall trimmedCall (callsOf m) /\ NoDup (map callKey (callsOf m)).

(** The content of the last message of the transcript. *)
Definition lastContent (st : State) : option string :=
  option_map content (lastMessage (messages st)).

(** The last message is the assistant's and its content is the text
    accumulated in [assistantMessage]. *)
Definition synced (st : State) : Prop :=
  exists m, lastMessage (messages st) = Some m /\
            role m = assistant /\
            content m = assistantMessage st.

Definition prefixOf (p s : string) : Prop := exists r, s = p ++ r.

(** The text has a complete annotation: the opening, one character or
    more without a closing bracket, and the closing bracket. *)
Definition hasAnnotation (c : string) : Prop :=
  exists pre txt post,
    c = pre ++ Pattern.opening ++ txt ++ "]" ++ post /\
    txt <> EmptyString /\
    Js.includes txt "]" = false.

(** The state of the component when it is mounted. *)
Definition initialState : State :=
  mkState [] false (mkSettings "AI for Drug Discovery" 3 EmptyString)
          EmptyString false 0.

(** The research idea typed in the form. *)
Definition typeIdea (idea : string) (st : State) : State :=
  withSettings (mkSettings (domain (settings st))
                           (numHypotheses (settings st)) idea) st.

(** A line followed by its line feed. *)
Definition terminated (line : string) : string :=
  line ++ String Js.LF EmptyString.

(* ================================================================= *)
(** ** The form and what is displayed *)

(** The value of a character as a digit, up to base 16. *)
Definition digitValue (c : ascii) : option Z :=
  let n := nat_of_ascii c in
  if ((48 <=? n)%nat && (n <=? 57)%nat) then Some (Z.of_nat (n - 48))
  else if ((97 <=? n)%nat && (n <=? 102)%nat) then Some (Z.of_nat (n - 87))
  else if ((65 <=? n)%nat && (n <=? 70)%nat) then Some (Z.of_nat (n - 55))
  else None.

(** The value of the longest run of digits of the base at the head of
    the text; [acc] is the value read so far, [None] before any digit. *)
Fixpoint digitsValue (radix : Z) (s : string) (acc : option Z) : option Z :=
  match s with
  | EmptyString => acc
  | String c r =>
      match digitValue c with
      | Some d =>
          if (d <? radix)%Z then
            digitsValue radix r
              (Some (radix * match acc with Some v => v | None => 0 end + d)%Z)
          else acc
      | None => acc
      end
  end.

(** [parseInt(text)]: leading white space, a sign, the [0x] prefix of
    base 16, then the digits; [None] is [NaN].  The result stands for
    the number that JavaScript makes of the integer that the digits
    denote: the two agree in every comparison with 1 and with 10 and
    on the integers from 1 to 10, which is all that line 248 uses (both
    zeros are [0]). *)
Definition parseInt (text : string) : option Z :=
  let s := Js.trimStart text in
  let (negative, s1) :=
    match s with
    | String c r =>
        if Ascii.eqb c "-" then (true, r)
        else if Ascii.eqb c "+" then (false, r)
        else (false, s)
    | EmptyString => (false, s)
    end in
  let (radix, s2) :=
    if Js.startsWith s1 "0x" || Js.startsWith s1 "0X"
    then (16%Z, Js.slice 2 s1) else (10%Z, s1) in
  match digitsValue radix s2 None with
  | Some v => Some (if negative then (- v)%Z else v)
  | None => None
  end.

Definition withNumHypotheses (n : nat) (st : State) : State :=
  withSettings (mkSettings (domain (settings st)) n
                           (researchIdea (settings st))) st.

(** [onChange] of the domain input, line 219. *)
Definition changeDomain (value : string) (st : State) : State :=
  withSettings (mkSettings value (numHypotheses (settings st))
                           (researchIdea (settings st))) st.

(** [onClick] of the minus button, line 235:
    [Math.max(1, prev.numHypotheses - 1)]. *)
Definition decrement (st : State) : State :=
  withNumHypotheses (Nat.max 1 (numHypotheses (settings st) - 1)) st.

(** [onClick] of the plus button, line 259:
    [Math.min(10, prev.numHypotheses + 1)]. *)
Definition increment (st : State) : State :=
  withNumHypotheses (Nat.min 10 (numHypotheses (settings st) + 1)) st.

(** [onChange] of the number input, lines 246-251. *)
Definition changeNumber (value : string) (st : State) : State :=
  match parseInt value with
  | Some val =>
      if ((1 <=? val)%Z && (val <=? 10)%Z) then withNumHypotheses (Z.to_nat val) st
      else st
  | None => st
  end.

(** The controls of the form. *)
Inductive Control : Type :=
| DomainInput | MinusButton | NumberInput | PlusButton
| IdeaInput | SubmitButton | ClearButton.

(** The control can be used: it is not [disabled] (lines 222, 236, 254,
    260, 282, 296) and, for the clear button, it is rendered (line
    309). *)
Definition enabled (c : Control) (st : State) : bool :=
  match c with
  | DomainInput => negb (isStreaming st)
  | MinusButton =>
      negb (isStreaming st || (numHypotheses (settings st) <=? 1)%nat)
  | NumberInput => negb (isStreaming st)
  | PlusButton =>
      negb (isStreaming st || (10 <=? numHypotheses (settings st))%nat)
  | IdeaInput => negb (isStreaming st)
  | SubmitButton =>
      negb (isStreaming st
            || negb (Js.nonEmpty (Js.trim (researchIdea (settings st)))))
  | ClearButton =>
      (0 <? List.length (messages st))%nat && negb (isStreaming st)
  end.

(** Line 428: the [Generating...] row under the transcript. *)
Definition showsSpinner (st : State) : bool :=
  isStreaming st &&
  match lastMessage (messages st) with
  | Some m => eqRole (role m) assistant
  | None => false
  end.

(** What the bubble of an assistant message shows, lines 376-384: its
    content, or one of two placeholders. *)
Inductive Body : Type :=
| Shown (text : string)
| Placeholder (text : string).

Definition assistantBody (m : Message) : Body :=
  if Js.nonEmpty (content m) then Shown (content m)
  else Placeholder match toolCalls m with
                   | Some (_ :: _) => "Processing research..."
                   | _ => "Generating response..."
                   end.

(** A message and what it has become: the role and the timestamp are
    the same, and the tool calls are the old ones followed by more. *)
Definition extends (m m' : Message) : Prop :=
  role m' = role m /\ timestamp m' = timestamp m /\
  exists more, callsOf m' = (callsOf m ++ more)%list.

(** The transcript holds what it held up to a given message, then that
    message as it has become, then assistant messages. *)
Definition kept (pre : list Message) (m : Message) (ms : list Message) : Prop :=
  exists m' added,
    ms = (pre ++ m' :: added)%list /\ extends m m' /\
    Forall (fun x => role x = assistant) added.

(** The number of hypotheses is in its range and no stream is read. *)
Definition atRest (st : State) : Prop :=
  (1 <= numHypotheses (settings st) <= 10)%nat /\ isStreaming st = false.

(** The text is made of white space only. *)
Fixpoint allWhiteSpace (s : string) : bool :=
  match s with
  | EmptyString => true
  | String c r => Js.isWhiteSpace c && allWhiteSpace r
  end.

Section Interpreter.

(** [JSON.parse]: [None] is the SyntaxError. *)
Variable JSON_parse : string -> option Json.value.

(** The value of the [n]-th [new Date()] of the run. *)
Variable now : nat -> Z.

(** [setMessages(prev => [...prev, m])] with a fresh [timestamp] *)
Definition appendMessage (r : Role) (c : string)
           (tcs : option (list ToolCall)) (st : State) : State :=
  tick (withMessages
          (messages st ++ [mkMessage r c (now (dates st)) tcs])%list st).

(** The updater of lines 121-144. *)
Definition recordToolCall (toolName toolDescription : string) (st : State)
  : State :=
  match lastMessage (messages st) with
  | Some last =>
      if eqRole (role last) assistant then
        let calls := match toolCalls last with
                     | Some l => l
                     | None => []
                     end in
        let toolCallText :=
          callText (Js.trim toolName) (Js.trim toolDescription) in
        if isDuplicate calls toolCallText then
          withMessages
            (updateLast (fun m => mkMessage (role m) (content m)
                                    (timestamp m) (Some calls))
                        (messages st)) st
        else
          tick (withMessages
                  (updateLast
                     (fun m => mkMessage (role m) (content m) (timestamp m)
                                 (Some (calls ++
                                          [mkToolCall (Js.trim toolName)
                                             (Js.trim toolDescription)
                                             (now (dates st))])%list))
                     (messages st)) st)
      else st
  | None => st
  end.

(** Lines 155-162: a new assistant message for the text that follows
    tool calls. *)
Definition startSegment (c : string) (st : State) : State :=
  withHasSeenToolCalls false
    (withAssistantMessage c (appendMessage assistant c (Some []) st)).

(** Lines 165-173: the text is added to [assistantMessage], which is
    then written to the last message when that one is the assistant's. *)
Definition accumulate (c : string) (st : State) : State :=
  let acc := assistantMessage st ++ c in
  let st1 := withAssistantMessage acc st in
  match lastMessage (messages st) with
  | Some last =>
      if eqRole (role last) assistant then
        withMessages
          (updateLast (fun m => mkMessage (role m) acc (timestamp m)
                                  (toolCalls m))
                      (messages st)) st1
      else st1
  | None => st1
  end.

(** Lines 109-175, for a truthy [content]. *)
Definition onContent (c : Json.value) (st : State) : Completion :=
  match Json.includesMarker c with
  | None => Thrown st
  | Some true =>
      let st1 := withHasSeenToolCalls true st in
      match c with
      | Json.JStr s =>
          match Pattern.regexMatch s with
          | Some toolCallText =>
              let (toolName, toolDescription) := extractToolCall toolCallText in
              Normal (recordToolCall toolName toolDescription st1)
          | None => Normal st1
          end
      | _ => Thrown st1
      end
  | Some false =>
      if hasSeenToolCalls st then
        match c with
        | Json.JStr s =>
            if Js.nonEmpty (Js.trim s) then Normal (startSegment s st)
            else Normal (accumulate s st)
        | _ => Thrown st
        end
      else Normal (accumulate (Json.toString c) st)
  end.

(** The body of the inner [try], lines 101-176. *)
Definition tryBody (data : string) (st : State) : Completion :=
  match JSON_parse data with
  | None => Thrown st
  | Some parsed =>
      match Json.deltaContent parsed with
      | None => Thrown st
      | Some c =>
          if Json.truthy c then
            match c with
            | Some v => onContent v st
            | None => Normal st
            end
          else Normal st
      end
  end.

(** The inner [catch] logs and goes on. *)
Definition caught (c : Completion) : State :=
  match c with
  | Normal st => st
  | Thrown st => st
  end.

(** One turn of [for (const line of lines)], lines 96-180. *)
Definition processLine (st : State) (line : string) : State :=
  if Js.startsWith line "data: " then
    let data := Js.slice 6 line in
    if String.eqb data "[DONE]" then st
    else caught (tryBody data st)
  else st.

Definition processLines (st : State) (lines : list string) : State :=
  fold_left processLine lines st.

(** Lines 92-181 for one fragment. *)
Definition processChunk (st : State) (chunk : string) : State :=
  processLines st (linesOf chunk).

(** The [while (true)] loop: it ends with the body ([None]) or with the
    rejection of a read. *)
Fixpoint readLoop (reads : list Read) (st : State)
  : State * option Exception :=
  match reads with
  | [] => (st, None)
  | Fragment chunk :: rest => readLoop rest (processChunk st chunk)
  | ReadFailure e :: _ => (st, Some e)
  end.

(** Lines 81-86: the empty assistant message made when there is a
    reader. *)
Definition openStream (st : State) : State :=
  appendMessage assistant EmptyString (Some []) st.

Definition userContent (s : ChatSettings) : string :=
  "Research Idea: " ++ researchIdea s ++ String Js.LF "Domain: " ++ domain s
  ++ String Js.LF "Number of Hypotheses: " ++ Js.ofNat (numHypotheses s).

(** [error instanceof Error ? error.message : 'Unknown error occurred'] *)
Definition errorContent (e : Exception) : string :=
  "Error: " ++ match e with
               | ErrorObject m => m
               | OtherValue => "Unknown error occurred"
               end.

(** The outer [try], lines 55-183. *)
Definition request (outcome : FetchOutcome) (st : State)
  : State * option Exception :=
  match outcome with
  | FetchRejected e => (st, Some e)
  | Response ok status body =>
      if negb ok then
        (st, Some (ErrorObject ("HTTP error! status: " ++ Js.ofNat status)))
      else
        let st1 := withHasSeenToolCalls false
                     (withAssistantMessage EmptyString st) in
        match body with
        | None => (st1, None)
        | Some reads => readLoop reads (openStream st1)
        end
  end.

(** [handleSubmit], lines 42-194. *)
Definition handleSubmit (outcome : FetchOutcome) (st : State) : State :=
  if negb (Js.nonEmpty (Js.trim (researchIdea (settings st))))
     || isStreaming st
  then st
  else
    let st1 := withIsStreaming true
                 (appendMessage user (userContent (settings st)) None st) in
    let (st2, thrown) := request outcome st1 in
    let st3 := match thrown with
               | Some e => appendMessage system (errorContent e) None st2
               | None => st2
               end in
    withIsStreaming false st3.

(** The string that an event line carries as its delta content: the
    line has the [data: ] prefix, its payload is not the sentinel, and
    [parsed.choices?.[0]?.delta?.content] is that string. *)
Definition eventContent (line : string) : option string :=
  if Js.startsWith line "data: " then
    let data := Js.slice 6 line in
    if String.eqb data "[DONE]" then None
    else match JSON_parse data with
         | Some parsed =>
             match Json.deltaContent parsed with
             | Some (Some (Json.JStr c)) => Some c
             | _ => None
             end
         | None => None
         end
  else None.

(** The state after the lines read so far of a stream that was opened
    in [st]. *)
Definition streamState (st : State) (lines : list string) : State :=
  processLines (openStream (withHasSeenToolCalls false
                              (withAssistantMessage EmptyString st))) lines.

(** The state after the idea [idea] was submitted from the initial
    state, and the state in which its stream opens. *)
Definition submitted : State :=
  withIsStreaming true
    (appendMessage user
       (userContent (settings (typeIdea "idea" initialState))) None
       (typeIdea "idea" initialState)).

Definition opened : State := openStream submitted.

(** What an event line whose delta content is the string [c] does: an
    empty [c] is falsy and the event is passed over. *)
Definition onEvent (c : string) (st : State) : State :=
  if Js.nonEmpty c then caught (onContent (Json.JStr c) st) else st.

(** The shapes of one turn of the line loop. *)
Inductive turn (st : State) : State -> Prop :=
| turn_nothing : turn st st
| turn_flag : turn st (withHasSeenToolCalls true st)
| turn_call (toolName toolDescription : string) :
    turn st (recordToolCall toolName toolDescription
               (withHasSeenToolCalls true st))
| turn_segment (c : string) :
    hasSeenToolCalls st = true -> turn st (startSegment c st)
| turn_text (c : string) : turn st (accumulate c st).

(** The truthy value that an event line carries as its delta content;
    [None] for every line that the loop passes over before line 103. *)
Definition eventValue (line : string) : option Json.value :=
  if Js.startsWith line "data: " then
    let data := Js.slice 6 line in
    if String.eqb data "[DONE]" then None
    else match JSON_parse data with
         | Some parsed =>
             match Json.deltaContent parsed with
             | Some c => if Json.truthy c then c else None
             | None => None
             end
         | None => None
         end
  else None.

(** What the user does with the form; a submission comes with what the
    request will meet. *)
Inductive UiEvent : Type :=
| ChangeDomain (value : string)
| ClickMinus
| ChangeNumber (value : string)
| ClickPlus
| ChangeIdea (value : string)
| Submit (outcome : FetchOutcome)
| ClickClear.

Definition controlOf (ev : UiEvent) : Control :=
  match ev with
  | ChangeDomain _ => DomainInput
  | ClickMinus => MinusButton
  | ChangeNumber _ => NumberInput
  | ClickPlus => PlusButton
  | ChangeIdea _ => IdeaInput
  | Submit _ => SubmitButton
  | ClickClear => ClearButton
  end.

(** The handler that the control runs. *)
Definition handle (ev : UiEvent) (st : State) : State :=
  match ev with
  | ChangeDomain value => changeDomain value st
  | ClickMinus => decrement st
  | ChangeNumber value => changeNumber value st
  | ClickPlus => increment st
  | ChangeIdea value => typeIdea value st
  | Submit outcome => handleSubmit outcome st
  | ClickClear => handleClear st
  end.

(** An event reaches its handler only through a control that can be
    used. *)
Definition dispatch (st : State) (ev : UiEvent) : State :=
  if enabled (controlOf ev) st then handle ev st else st.

Definition session (events : list UiEvent) : State :=
  fold_left dispatch events initialState.

(* ================================================================= *)
(** ** Strings: prefixes, lines, pieces *)

Section StringFacts.

Lemma append_empty_r (s : string) : s ++ EmptyString = s.
Proof. induction s as [|c s IH]; simpl; congruence. Qed.

Lemma append_assoc (a b c : string) : (a ++ b) ++ c = a ++ (b ++ c).
Proof. induction a as [|x a IH]; simpl; congruence. Qed.

Lemma startsWith_append (p r : string) : Js.startsWith (p ++ r) p = true.
Proof.
  induction p as [|a p IH]; simpl; [reflexivity|].
  now rewrite Ascii.eqb_refl, IH.
Qed.

Lemma startsWith_inv (p s : string) :
  Js.startsWith s p = true -> s = p ++ Js.slice (String.length p) s.
Proof.
  revert s; induction p as [|a p IH]; intros s H; simpl in *; [reflexivity|].
  destruct s as [|b s]; [discriminate|].
  apply andb_prop in H as [Hab Hp].
  apply Ascii.eqb_eq in Hab; subst b.
  f_equal; now apply IH.
Qed.

Lemma slice_append (p r : string) : Js.slice (String.length p) (p ++ r) = r.
Proof. induction p as [|a p IH]; simpl; auto. Qed.

Lemma take_slice (n : nat) (s : string) : Js.take n s ++ Js.slice n s = s.
Proof.
  revert s; induction n as [|n IH]; intros [|c s]; simpl; auto.
  now rewrite IH.
Qed.

Lemma includes_startsWith (s sub : string) :
  Js.startsWith s sub = true -> Js.includes s sub = true.
Proof. intros H; destruct s; simpl in *; now rewrite H. Qed.

Lemma includes_cons (c : ascii) (s sub : string) :
  Js.includes s sub = true -> Js.includes (String c s) sub = true.
Proof. intros H; simpl; rewrite H; apply orb_true_r. Qed.

Lemma includes_append (pre s sub : string) :
  Js.includes s sub = true -> Js.includes (pre ++ s) sub = true.
Proof.
  intros H; induction pre as [|c pre IH]; simpl; [exact H|].
  fold (Js.includes (pre ++ s) sub). rewrite IH. apply orb_true_r.
Qed.

End StringFacts.

Section Lines.


Lemma linesOf_cons (c : ascii) (r : string) :
  linesOf (String c r) =
  if Ascii.eqb Js.LF c then EmptyString :: linesOf r
  else Js.cons_head c (linesOf r).
Proof.
  unfold linesOf, Js.split; simpl.
  now rewrite andb_true_r.
Qed.

Lemma linesOf_not_nil (s : string) : linesOf s <> [].
Proof.
  destruct s as [|c r]; [discriminate|].
  rewrite linesOf_cons.
  destruct (Ascii.eqb Js.LF c); [discriminate|].
  destruct (linesOf r); discriminate.
Qed.




Lemma wholeBody_cons (f : string) (fs : list string) :
  wholeBody (f :: fs) = f ++ wholeBody fs.
Proof.
  unfold wholeBody. destruct fs as [|g fs]; simpl.
  - now rewrite append_empty_r.
  - reflexivity.
Qed.

Lemma wholeBody_app (fs gs : list string) :
  wholeBody (fs ++ gs)%list = wholeBody fs ++ wholeBody gs.
Proof.
  induction fs as [|f fs IH].
  - reflexivity.
  - change ((f :: fs) ++ gs)%list with (f :: (fs ++ gs))%list.
    now rewrite !wholeBody_cons, IH, append_assoc.
Qed.


End Lines.

(* ================================================================= *)
(** ** The line loop *)

Section LineLoop.

Lemma processLines_app (st : State) (l1 l2 : list string) :
  processLines st (l1 ++ l2)%list = processLines (processLines st l1) l2.
Proof. apply fold_left_app. Qed.

Lemma processLines_cons (st : State) (l : string) (ls : list string) :
  processLines st (l :: ls) = processLines (processLine st l) ls.
Proof. reflexivity. Qed.

Lemma processLine_other (st : State) (line : string) :
  Js.startsWith line "data: " = false -> processLine st line = st.
Proof. intros H. unfold processLine. now rewrite H. Qed.



(** A body whose reads all succeed: the lines of the fragments go
    through the loop in order, and nothing is thrown. *)
Lemma readLoop_fragments (fragments : list string) (st : State) :
  readLoop (map Fragment fragments) st =
  (processLines st (linesRead fragments), None).
Proof.
  revert st; induction fragments as [|f fs IH]; intros st; [reflexivity|].
  simpl. rewrite IH. unfold linesRead. simpl flat_map.
  now rewrite processLines_app.
Qed.

Lemma processLine_done (st : State) : processLine st "data: [DONE]" = st.
Proof. reflexivity. Qed.

Lemma processLine_syntax_error (st : State) (line : string) :
  Js.startsWith line "data: " = true ->
  JSON_parse (Js.slice 6 line) = None ->
  processLine st line = st.
Proof.
  intros Hp Hj. unfold processLine, tryBody. rewrite Hp, Hj.
  now destruct (String.eqb _ _).
Qed.

End LineLoop.

(* ================================================================= *)
(** ** Pieces of a split, and trimming *)

Section Pieces.

Variable sep : string.
Hypothesis sep_nonEmpty : sep <> EmptyString.

Lemma split_go_skip (k : nat) (s : string) :
  Js.split_go sep k s = Js.split_go sep 0 (Js.slice k s).
Proof.
  revert k; induction s as [|c r IH]; intros [|k]; try reflexivity.
  cbn [Js.split_go Js.slice]. apply IH.
Qed.

Lemma startsWith_empty : Js.startsWith EmptyString sep = false.
Proof using sep_nonEmpty. destruct sep; [congruence | reflexivity]. Qed.

Lemma slice_length (n : nat) (s : string) :
  String.length (Js.slice n s) = String.length s - n.
Proof.
  revert s; induction n as [|n IH]; intros [|c r]; cbn; auto.
Qed.

(** The pieces, by the first place where the separator stands. *)
Lemma split_indexOf (s : string) :
  match Js.indexOf s sep with
  | None => Js.split sep s = [s]
  | Some i =>
      Js.split sep s =
      Js.take i s :: Js.split sep (Js.slice (i + String.length sep) s)
  end.
Proof using sep_nonEmpty.
  unfold Js.split. induction s as [|c r IH].
  - cbn [Js.indexOf]. now rewrite startsWith_empty.
  - cbn [Js.indexOf Js.split_go].
    destruct (Js.startsWith (String c r) sep) eqn:E.
    + rewrite split_go_skip. cbn [Js.take]. f_equal. f_equal.
      destruct sep; [congruence|]. cbn. now rewrite Nat.sub_0_r.
    + destruct (Js.indexOf r sep) as [i|]; cbn [option_map].
      * rewrite IH. reflexivity.
      * rewrite IH. reflexivity.
Qed.

Lemma indexOf_Some (s : string) (i : nat) :
  Js.indexOf s sep = Some i ->
  s = Js.take i s ++ sep ++ Js.slice (i + String.length sep) s.
Proof.
  revert i; induction s as [|c r IH]; intros i; cbn [Js.indexOf].
  - destruct (Js.startsWith EmptyString sep) eqn:E; [|discriminate].
    intros [= <-]. exact (startsWith_inv _ _ E).
  - destruct (Js.startsWith (String c r) sep) eqn:E.
    + intros [= <-]. exact (startsWith_inv _ _ E).
    + destruct (Js.indexOf r sep) as [j|]; [|discriminate].
      intros [= <-]. cbn. f_equal. now apply IH.
Qed.

Lemma split_not_nil (s : string) : Js.split sep s <> [].
Proof using sep_nonEmpty.
  assert (H := split_indexOf s).
  destruct (Js.indexOf s sep); rewrite H; discriminate.
Qed.

Lemma join_cons (x : string) (l : list string) :
  l <> [] -> Js.join sep (x :: l) = x ++ sep ++ Js.join sep l.
Proof. destruct l; [congruence | reflexivity]. Qed.

(** Joining the pieces with the separator gives the text back. *)
Lemma join_split (s : string) : Js.join sep (Js.split sep s) = s.
Proof using sep_nonEmpty.
  remember (String.length s) as n eqn:Hn.
  revert s Hn. induction n as [n IH] using lt_wf_ind. intros s Hn.
  assert (H := split_indexOf s).
  destruct (Js.indexOf s sep) as [i|] eqn:E; rewrite H; [|reflexivity].
  rewrite join_cons by apply split_not_nil.
  rewrite (IH (String.length (Js.slice (i + String.length sep) s))).
  - symmetry. now apply indexOf_Some.
  - rewrite slice_length. subst n.
    destruct s as [|c r].
    + cbn [Js.indexOf] in E. rewrite startsWith_empty in E. discriminate.
    + destruct sep; [congruence|]. cbn [String.length]. lia.
  - reflexivity.
Qed.

End Pieces.

Section Trim.

Lemma trimEnd_cons (c : ascii) (r : string) :
  Js.trimEnd (String c r) =
  match Js.trimEnd r with
  | EmptyString => if Js.isWhiteSpace c then EmptyString
                   else String c EmptyString
  | String d r' => String c (String d r')
  end.
Proof. reflexivity. Qed.

Lemma trimEnd_idempotent (s : string) :
  Js.trimEnd (Js.trimEnd s) = Js.trimEnd s.
Proof.
  induction s as [|c r IH]; [reflexivity|].
  rewrite (trimEnd_cons c r).
  destruct (Js.trimEnd r) as [|d r'] eqn:E.
  - destruct (Js.isWhiteSpace c) eqn:W; [reflexivity|].
    rewrite trimEnd_cons. cbn [Js.trimEnd]. now rewrite W.
  - rewrite trimEnd_cons, IH. reflexivity.
Qed.

Lemma trimEnd_head (c : ascii) (r : string) :
  Js.isWhiteSpace c = false ->
  exists r', Js.trimEnd (String c r) = String c r'.
Proof.
  intros W. rewrite trimEnd_cons.
  destruct (Js.trimEnd r) as [|d r'].
  - rewrite W. now exists EmptyString.
  - now exists (String d r').
Qed.

Lemma trimStart_cases (s : string) :
  Js.trimStart s = EmptyString \/
  exists c r, Js.trimStart s = String c r /\ Js.isWhiteSpace c = false.
Proof.
  induction s as [|c r IH]; [now left|].
  cbn [Js.trimStart]. destruct (Js.isWhiteSpace c) eqn:W; [exact IH|].
  right. now exists c, r.
Qed.

(** Trimming what is trimmed changes nothing. *)
Lemma trim_idempotent (s : string) : Js.trim (Js.trim s) = Js.trim s.
Proof.
  unfold Js.trim.
  destruct (trimStart_cases s) as [-> | (c & r & -> & W)]; [reflexivity|].
  destruct (trimEnd_head c r W) as [r' E].
  rewrite E at 1. cbn [Js.trimStart]. rewrite W, <- E.
  apply trimEnd_idempotent.
Qed.

End Trim.

(* ================================================================= *)
(** ** The annotation pattern *)

Section PatternFacts.

Local Arguments Ascii.eqb : simpl never.

Lemma upToBracket_sound (s g : string) :
  Pattern.upToBracket s = Some g ->
  Js.includes g "]" = false /\ exists post, s = g ++ "]" ++ post.
Proof.
  revert g; induction s as [|c r IH]; intros g; simpl; [discriminate|].
  destruct (Ascii.eqb "]" c) eqn:E.
  - intros [= <-]. apply Ascii.eqb_eq in E. subst c.
    split; [reflexivity | now exists r].
  - destruct (Pattern.upToBracket r) as [g'|]; [|discriminate].
    intros [= <-]. destruct (IH g' eq_refl) as [Hno [post ->]].
    split; [|now exists post].
    simpl. rewrite E. exact Hno.
Qed.

Lemma upToBracket_complete (g post : string) :
  Js.includes g "]" = false ->
  Pattern.upToBracket (g ++ "]" ++ post) = Some g.
Proof.
  induction g as [|c g IH]; intros H; [reflexivity|].
  simpl in H. apply orb_false_elim in H as [Hc Hg].
  rewrite andb_true_r in Hc.
  simpl. rewrite Hc.
  change (Pattern.upToBracket (g ++ String "]" post))
    with (Pattern.upToBracket (g ++ "]" ++ post)).
  now rewrite (IH Hg).
Qed.

Lemma matchHere_sound (s g : string) :
  Pattern.matchHere s = Some g ->
  g <> EmptyString /\ Js.includes g "]" = false /\
  exists post, s = Pattern.opening ++ g ++ "]" ++ post.
Proof.
  unfold Pattern.matchHere.
  destruct (Js.startsWith s Pattern.opening) eqn:Hs; [|discriminate].
  destruct (Pattern.upToBracket _) as [g'|] eqn:Hu; [|discriminate].
  destruct g' as [|c g']; cbn [Js.nonEmpty]; [discriminate|].
  intros [= <-].
  destruct (upToBracket_sound _ _ Hu) as [Hno [post Hpost]].
  split; [discriminate|]. split; [exact Hno|].
  exists post. rewrite <- Hpost. now apply startsWith_inv.
Qed.

Lemma matchHere_complete (g post : string) :
  g <> EmptyString -> Js.includes g "]" = false ->
  Pattern.matchHere (Pattern.opening ++ g ++ "]" ++ post) = Some g.
Proof.
  intros Hne Hno. unfold Pattern.matchHere.
  rewrite startsWith_append, slice_append, (upToBracket_complete _ _ Hno).
  destruct g; [congruence | reflexivity].
Qed.

(** A match of the pattern is a complete annotation of the text. *)
Lemma regexMatch_sound (s g : string) :
  Pattern.regexMatch s = Some g ->
  g <> EmptyString /\ Js.includes g "]" = false /\
  exists pre post, s = pre ++ Pattern.opening ++ g ++ "]" ++ post.
Proof.
  induction s as [|c r IH]; simpl.
  - destruct (Pattern.matchHere EmptyString) eqn:E; discriminate.
  - destruct (Pattern.matchHere (String c r)) as [g'|] eqn:E.
    + intros [= <-]. destruct (matchHere_sound _ _ E) as (H1 & H2 & post & H3).
      split; [exact H1|]. split; [exact H2|].
      exists EmptyString, post. exact H3.
    + intros H. destruct (IH H) as (H1 & H2 & pre & post & ->).
      split; [exact H1|]. split; [exact H2|].
      now exists (String c pre), post.
Qed.

(** A text with a complete annotation has a match. *)
Lemma regexMatch_complete (pre g post : string) :
  g <> EmptyString -> Js.includes g "]" = false ->
  Pattern.regexMatch (pre ++ Pattern.opening ++ g ++ "]" ++ post) <> None.
Proof.
  intros Hne Hno. induction pre as [|c pre IH].
  - change (EmptyString ++ Pattern.opening ++ g ++ "]" ++ post)
      with (Pattern.opening ++ g ++ "]" ++ post).
    assert (H := matchHere_complete g post Hne Hno).
    unfold Pattern.opening in *. simpl in *. now rewrite H.
  - change (Pattern.regexMatch (String c pre ++ Pattern.opening ++ g ++ "]" ++ post))
      with (match Pattern.matchHere (String c (pre ++ Pattern.opening ++ g ++ "]" ++ post)) with
            | Some g' => Some g'
            | None => Pattern.regexMatch (pre ++ Pattern.opening ++ g ++ "]" ++ post)
            end).
    destruct (Pattern.matchHere _); [discriminate | exact IH].
Qed.

Lemma regexMatch_None_iff (c : string) :
  Pattern.regexMatch c = None <-> ~ hasAnnotation c.
Proof.
  split.
  - intros H (pre & txt & post & -> & Hne & Hno).
    now apply (regexMatch_complete pre txt post Hne Hno).
  - intros H. destruct (Pattern.regexMatch c) as [g|] eqn:E; [|reflexivity].
    exfalso. apply H. destruct (regexMatch_sound _ _ E) as (H1 & H2 & pre & post & H3).
    now exists pre, g, post.
Qed.


Lemma startsWith_opening_marker (s : string) :
  Js.startsWith s Pattern.opening = true ->
  Js.startsWith s Pattern.marker = true.
Proof.
  intros H. rewrite (startsWith_inv _ _ H).
  change Pattern.opening with (Pattern.marker ++ " ").
  rewrite append_assoc. apply startsWith_append.
Qed.

(** A text that the pattern matches holds the marker. *)
Lemma regexMatch_includes (c txt : string) :
  Pattern.regexMatch c = Some txt -> Js.includes c Pattern.marker = true.
Proof.
  intros H. destruct (regexMatch_sound _ _ H) as (_ & _ & pre & post & ->).
  apply includes_append, includes_startsWith, startsWith_opening_marker.
  apply startsWith_append.
Qed.

Lemma regexMatch_nonEmpty (c txt : string) :
  Pattern.regexMatch c = Some txt -> Js.nonEmpty c = true.
Proof. destruct c; [discriminate | reflexivity]. Qed.

End PatternFacts.

(* ================================================================= *)
(** ** The transcript and one event *)

Section Transcript.

Lemma lastMessage_snoc (ms : list Message) (m : Message) :
  lastMessage (ms ++ [m])%list = Some m.
Proof.
  induction ms as [|x ms IH]; [reflexivity|].
  simpl. destruct (ms ++ [m])%list eqn:E; [destruct ms; discriminate|].
  exact IH.
Qed.

Lemma updateLast_snoc (f : Message -> Message) (ms : list Message) (m : Message) :
  updateLast f (ms ++ [m])%list = (ms ++ [f m])%list.
Proof.
  induction ms as [|x ms IH]; [reflexivity|].
  simpl. destruct (ms ++ [m])%list eqn:E; [destruct ms; discriminate|].
  now rewrite IH.
Qed.

Lemma lastMessage_inv (ms : list Message) (m : Message) :
  lastMessage ms = Some m -> exists init, ms = (init ++ [m])%list.
Proof.
  induction ms as [|x ms IH]; [discriminate|].
  destruct ms as [|y ms].
  - intros [= ->]. now exists [].
  - intros H. destruct (IH H) as [init ->]. now exists (x :: init).
Qed.

Lemma lastMessage_None (ms : list Message) :
  lastMessage ms = None -> ms = [].
Proof.
  induction ms as [|x ms IH]; [reflexivity|].
  destruct ms as [|y ms]; [discriminate|].
  intros H. specialize (IH H). discriminate.
Qed.

Lemma processLine_event (st : State) (line c : string) :
  eventContent line = Some c -> processLine st line = onEvent c st.
Proof.
  unfold eventContent, processLine, onEvent, tryBody.
  destruct (Js.startsWith line "data: "); [|discriminate].
  destruct (String.eqb _ _); [discriminate|].
  destruct (JSON_parse _) as [parsed|]; [|discriminate].
  destruct (Json.deltaContent parsed) as [[[]|]|]; try discriminate.
  intros [= ->]. now destruct c.
Qed.

Lemma onContent_call (st : State) (c : string) :
  Js.includes c Pattern.marker = true ->
  onContent (Json.JStr c) st =
  Normal match Pattern.regexMatch c with
         | Some txt =>
             recordToolCall (fst (extractToolCall txt))
                            (snd (extractToolCall txt))
                            (withHasSeenToolCalls true st)
         | None => withHasSeenToolCalls true st
         end.
Proof.
  intros H. unfold onContent. cbn [Json.includesMarker]. rewrite H.
  destruct (Pattern.regexMatch c); [|reflexivity].
  now destruct (extractToolCall _).
Qed.

Lemma onContent_prose (st : State) (c : string) :
  Js.includes c Pattern.marker = false ->
  onContent (Json.JStr c) st =
  Normal (if hasSeenToolCalls st && Js.nonEmpty (Js.trim c)
          then startSegment c st else accumulate c st).
Proof.
  intros H. unfold onContent. cbn [Json.includesMarker Json.toString].
  rewrite H. destruct (hasSeenToolCalls st); [|reflexivity].
  now destruct (Js.nonEmpty _).
Qed.

Lemma onContent_turn (v : Json.value) (st : State) :
  turn st (caught (onContent v st)).
Proof.
  unfold onContent.
  destruct (Json.includesMarker v) as [[|]|]; cbn [caught].
  - destruct v; cbn [caught]; try apply turn_flag.
    destruct (Pattern.regexMatch s); cbn [caught]; [|apply turn_flag].
    destruct (extractToolCall s0). apply turn_call.
  - destruct (hasSeenToolCalls st) eqn:E; cbn [caught]; [|apply turn_text].
    destruct v; cbn [caught]; try apply turn_nothing.
    destruct (Js.nonEmpty _); cbn [caught];
      [now apply turn_segment | apply turn_text].
  - apply turn_nothing.
Qed.

(** Every line does one turn. *)
Lemma processLine_turn (st : State) (line : string) :
  turn st (processLine st line).
Proof.
  unfold processLine, tryBody.
  destruct (Js.startsWith _ _); [|apply turn_nothing].
  destruct (String.eqb _ _); [apply turn_nothing|].
  destruct (JSON_parse _) as [parsed|]; [|apply turn_nothing].
  destruct (Json.deltaContent parsed) as [c|]; [|apply turn_nothing].
  destruct (Json.truthy c); [|apply turn_nothing].
  destruct c; [apply onContent_turn | apply turn_nothing].
Qed.

Lemma trim_nonEmpty (s : string) :
  Js.nonEmpty (Js.trim s) = true -> Js.nonEmpty s = true.
Proof. destruct s; [discriminate | reflexivity]. Qed.

(** The text after tool calls opens a new assistant message. *)
Lemma onEvent_segment (st : State) (c : string) :
  hasSeenToolCalls st = true ->
  Js.includes c Pattern.marker = false ->
  Js.nonEmpty (Js.trim c) = true ->
  onEvent c st =
  mkState (messages st ++ [mkMessage assistant c (now (dates st)) (Some [])])%list
          (isStreaming st) (settings st) c false (S (dates st)).
Proof.
  intros Hseen Hmark Hblank. unfold onEvent.
  rewrite (trim_nonEmpty _ Hblank), (onContent_prose _ _ Hmark), Hseen, Hblank.
  reflexivity.
Qed.

(** The text is added to the assistant message in progress. *)
Lemma accumulate_snoc (st : State) (init : list Message) (m : Message) (c : string) :
  messages st = (init ++ [m])%list -> role m = assistant ->
  accumulate c st =
  mkState (init ++ [mkMessage assistant (assistantMessage st ++ c)
                      (timestamp m) (toolCalls m)])%list
          (isStreaming st) (settings st) (assistantMessage st ++ c)
          (hasSeenToolCalls st) (dates st).
Proof.
  intros Hms Hrole. unfold accumulate.
  rewrite Hms, lastMessage_snoc, Hrole. cbn [eqRole].
  unfold withMessages, withAssistantMessage. cbn.
  now rewrite updateLast_snoc, Hrole.
Qed.

(** A call is recorded in the assistant message in progress unless its
    text is there already. *)
Lemma recordToolCall_snoc (st : State) (init : list Message) (m : Message)
      (toolName toolDescription : string) :
  messages st = (init ++ [m])%list -> role m = assistant ->
  recordToolCall toolName toolDescription st =
  if isDuplicate (callsOf m)
       (callText (Js.trim toolName) (Js.trim toolDescription))
  then mkState (init ++ [mkMessage assistant (content m) (timestamp m)
                           (Some (callsOf m))])%list
               (isStreaming st) (settings st) (assistantMessage st)
               (hasSeenToolCalls st) (dates st)
  else mkState (init ++ [mkMessage assistant (content m) (timestamp m)
                           (Some (callsOf m ++
                                    [mkToolCall (Js.trim toolName)
                                       (Js.trim toolDescription)
                                       (now (dates st))])%list)])%list
               (isStreaming st) (settings st) (assistantMessage st)
               (hasSeenToolCalls st) (S (dates st)).
Proof.
  intros Hms Hrole. unfold recordToolCall.
  rewrite Hms, lastMessage_snoc, Hrole. cbn [eqRole].
  fold (callsOf m).
  destruct (isDuplicate _ _); unfold withMessages, tick; cbn;
    now rewrite updateLast_snoc, Hrole.
Qed.

End Transcript.

(* ================================================================= *)
(** ** Fragments and lines *)

Section Fragments.


(** C2, as the code has it.  The line [data: [DONE]] is passed over: it
    changes nothing, and the lines that follow it, in the same chunk or
    in later ones, are processed as they would be without it. *)
Theorem done_line_is_passed_over
        (st : State) (before after : list string) (reads : list Read) :
  processLine st "data: [DONE]" = st
  /\ processLines st (before ++ "data: [DONE]" :: after)%list
     = processLines (processLines st before) after
  /\ readLoop (Fragment (terminated "data: [DONE]") :: reads) st
     = readLoop reads st.
Proof.
  split; [reflexivity|].
  split; [|reflexivity].
  now rewrite processLines_app, processLines_cons, processLine_done.
Qed.

(** C5.  A line [data: ...] whose payload [JSON.parse] rejects leaves
    the transcript and the locals as they were: the exception is thrown
    before any write and is caught by the inner [catch].  The lines
    before it and after it are processed as if it were not there, and a
    body whose reads all succeed ends without an exception, whatever its
    lines hold. *)
Theorem malformed_line_is_skipped
        (st : State) (line : string) (before after : list string)
        (fragments : list string) :
  Js.startsWith line "data: " = true ->
  JSON_parse (Js.slice 6 line) = None ->
  tryBody (Js.slice 6 line) st = Thrown st
  /\ processLine st line = st
  /\ processLines st (before ++ line :: after)%list
     = processLines (processLines st before) after
  /\ snd (readLoop (map Fragment fragments) st) = None.
Proof.
  intros Hprefix Hparse.
  split; [unfold tryBody; now rewrite Hparse|].
  split; [now apply processLine_syntax_error|].
  split.
  - rewrite processLines_app, processLines_cons.
    now rewrite processLine_syntax_error.
  - now rewrite readLoop_fragments.
Qed.

End Fragments.

(* ================================================================= *)
(** ** Text, tool calls and segments *)

Section Segments.



(** C10.  A chunk that holds the marker but no complete annotation (the
    opening, one character or more other than a closing bracket, the
    closing bracket) records no call and adds no text: the transcript
    and the accumulated text stay as they were and no [Date] is made.
    The flag is raised all the same, so the next text that is not blank
    opens a new assistant message instead of being added to the current
    one. *)
Theorem unmatched_marker_still_breaks_segment
        (st : State) (line c next p : string) :
  eventContent line = Some c ->
  Js.includes c Pattern.marker = true ->
  ~ hasAnnotation c ->
  eventContent next = Some p ->
  Js.includes p Pattern.marker = false ->
  Js.nonEmpty (Js.trim p) = true ->
  let st' := processLine st line in
  messages st' = messages st
  /\ assistantMessage st' = assistantMessage st
  /\ dates st' = dates st
  /\ hasSeenToolCalls st' = true
  /\ messages (processLine st' next) =
       (messages st ++ [mkMessage assistant p (now (dates st)) (Some [])])%list
  /\ assistantMessage (processLine st' next) = p.
Proof.
  intros E M N%regexMatch_None_iff E' M' B st'.
  assert (Hne : Js.nonEmpty c = true) by (destruct c; [discriminate | reflexivity]).
  assert (Hst : st' = withHasSeenToolCalls true st).
  { unfold st'. rewrite (processLine_event _ _ _ E). unfold onEvent.
    now rewrite Hne, (onContent_call _ _ M), N. }
  rewrite Hst, (processLine_event _ _ _ E').
  rewrite (onEvent_segment (withHasSeenToolCalls true st) _ eq_refl M' B).
  now repeat split.
Qed.

End Segments.

(* ================================================================= *)
(** ** The name and the description of a call *)

Section Extraction.

Lemma dash_nonEmpty : " - " <> EmptyString.
Proof. discriminate. Qed.

(** C8, as the code has it.  The annotation text is cut at the first
    [ - ]: the name is the text before it and the description is the
    whole text after it, further [ - ] included.  The description is
    [Running...] when the text has no [ - ], and also when nothing
    follows the first [ - ]. *)
Theorem extractToolCall_spec (toolCallText : string) :
  extractToolCall toolCallText =
  match Js.indexOf toolCallText " - " with
  | None => (toolCallText, "Running...")
  | Some i =>
      (Js.take i toolCallText,
       let after := Js.slice (i + 3) toolCallText in
       if Js.nonEmpty after then after else "Running...")
  end.
Proof.
  unfold extractToolCall.
  assert (H := split_indexOf " - " dash_nonEmpty toolCallText).
  destruct (Js.indexOf toolCallText " - ") as [i|]; rewrite H.
  - change (String.length " - ") with 3.
    now rewrite (join_split " - " dash_nonEmpty).
  - reflexivity.
Qed.

End Extraction.

(* ================================================================= *)
(** ** No call is recorded twice *)

Section Dedup.

Lemma recordToolCall_cases (toolName toolDescription : string) (st : State) :
  recordToolCall toolName toolDescription st = st \/
  exists init m, messages st = (init ++ [m])%list /\ role m = assistant.
Proof.
  destruct (lastMessage (messages st)) as [m|] eqn:L.
  - destruct (lastMessage_inv _ _ L) as [init Hinit].
    destruct (role m) eqn:R.
    + left. unfold recordToolCall. now rewrite L, R.
    + right. now exists init, m.
    + left. unfold recordToolCall. now rewrite L, R.
  - left. unfold recordToolCall. now rewrite L.
Qed.

Lemma accumulate_cases (c : string) (st : State) :
  accumulate c st = withAssistantMessage (assistantMessage st ++ c) st \/
  exists init m, messages st = (init ++ [m])%list /\ role m = assistant.
Proof.
  destruct (lastMessage (messages st)) as [m|] eqn:L.
  - destruct (lastMessage_inv _ _ L) as [init Hinit].
    destruct (role m) eqn:R.
    + left. unfold accumulate. now rewrite L, R.
    + right. now exists init, m.
    + left. unfold accumulate. now rewrite L, R.
  - left. unfold accumulate. now rewrite L.
Qed.

Lemma isDuplicate_false (calls : list ToolCall) (text : string) :
  isDuplicate calls text = false ->
  forall call, In call calls ->
               callText (name call) (description call) <> text.
Proof.
  intros H call Hin Heq.
  assert (E : isDuplicate calls text = true).
  { apply existsb_exists. exists call. split; [exact Hin|].
    now apply String.eqb_eq. }
  congruence.
Qed.

Lemma isDuplicate_recorded (calls : list ToolCall) (n d : string) (t : Z) :
  isDuplicate (calls ++ [mkToolCall n d t])%list (callText n d) = true.
Proof.
  unfold isDuplicate. rewrite existsb_app. cbn.
  rewrite String.eqb_refl. now rewrite orb_true_r.
Qed.

Lemma NoDup_snoc {A : Type} (l : list A) (x : A) :
  NoDup l -> ~ In x l -> NoDup (l ++ [x])%list.
Proof.
  intros Hl Hx. apply NoDup_app; [exact Hl | repeat constructor; intros [] |].
  intros a Ha [<- | []]. now apply Hx.
Qed.

Lemma callsDistinct_calls (m m' : Message) :
  callsOf m' = callsOf m -> callsDistinct m -> callsDistinct m'.
Proof. unfold callsDistinct. now intros ->. Qed.

Lemma callsDistinct_empty (m : Message) : callsOf m = [] -> callsDistinct m.
Proof.
  unfold callsDistinct. intros ->. split; constructor.
Qed.

(** A call that the duplicate check lets through differs from the calls
    of the message, and is stored trimmed. *)
Lemma callsDistinct_recorded (m m' : Message) (n d : string) (t : Z) :
  callsDistinct m ->
  isDuplicate (callsOf m) (callText (Js.trim n) (Js.trim d)) = false ->
  callsOf m' = (callsOf m ++ [mkToolCall (Js.trim n) (Js.trim d) t])%list ->
  callsDistinct m'.
Proof.
  intros [Htrim Hnodup] Hdup Hcalls. unfold callsDistinct. rewrite Hcalls.
  split.
  - apply Forall_app. split; [exact Htrim|].
    constructor; [|constructor].
    split; cbn [name description]; apply trim_idempotent.
  - rewrite map_app. apply NoDup_snoc; [exact Hnodup|].
    cbn [map]. intros Hin. apply in_map_iff in Hin as (call & Hkey & Hin).
    apply (isDuplicate_false _ _ Hdup call Hin).
    rewrite Forall_forall in Htrim. destruct (Htrim call Hin) as [Hn Hd].
    unfold callKey in Hkey. cbn [name description] in Hkey.
    rewrite !trim_idempotent in Hkey.
    injection Hkey as Hkn Hkd. now rewrite <- Hn, <- Hd, Hkn, Hkd.
Qed.

Lemma turn_callsDistinct (st st' : State) :
  turn st st' ->
  Forall callsDistinct (messages st) -> Forall callsDistinct (messages st').
Proof.
  intros T H. destruct T as [| |n d|c Hseen|c]; try exact H.
  - set (s1 := withHasSeenToolCalls true st).
    destruct (recordToolCall_cases n d s1) as [-> | (init & m & Hinit & Hrole)];
      [exact H|].
    rewrite (recordToolCall_snoc _ _ _ _ _ Hinit Hrole).
    change (messages s1) with (messages st) in Hinit. rewrite Hinit in H.
    apply Forall_app in H as [Hi Hm]. inversion_clear Hm as [|? ? Hm' _].
    destruct (isDuplicate _ _) eqn:D; cbn [messages];
      apply Forall_app; (split; [exact Hi|]); (constructor; [|constructor]).
    + now apply (callsDistinct_calls m).
    + now apply (callsDistinct_recorded m _ n d (now (dates s1))).
  - cbn. apply Forall_app. split; [exact H|].
    constructor; [|constructor]. now apply callsDistinct_empty.
  - destruct (accumulate_cases c st) as [-> | (init & m & Hinit & Hrole)];
      [exact H|].
    rewrite (accumulate_snoc _ _ _ _ Hinit Hrole). cbn [messages].
    rewrite Hinit in H. apply Forall_app in H as [Hi Hm].
    inversion_clear Hm as [|? ? Hm' _].
    apply Forall_app. split; [exact Hi|]. constructor; [|constructor].
    now apply (callsDistinct_calls m).
Qed.

Lemma processLines_callsDistinct (lines : list string) (st : State) :
  Forall callsDistinct (messages st) ->
  Forall callsDistinct (messages (processLines st lines)).
Proof.
  revert st; induction lines as [|l ls IH]; intros st H; [exact H|].
  rewrite processLines_cons. apply IH.
  exact (turn_callsDistinct _ _ (processLine_turn st l) H).
Qed.

Lemma readLoop_callsDistinct (reads : list Read) (st : State) :
  Forall callsDistinct (messages st) ->
  Forall callsDistinct (messages (fst (readLoop reads st))).
Proof.
  revert st; induction reads as [|[chunk|e] rs IH]; intros st H;
    cbn [readLoop fst]; [exact H | | exact H].
  apply IH. now apply processLines_callsDistinct.
Qed.

Lemma appendMessage_callsDistinct (r : Role) (c : string)
      (tcs : option (list ToolCall)) (st : State) :
  match tcs with Some (_ :: _) => False | _ => True end ->
  Forall callsDistinct (messages st) ->
  Forall callsDistinct (messages (appendMessage r c tcs st)).
Proof.
  intros Hn H. cbn. apply Forall_app. split; [exact H|].
  constructor; [|constructor]. apply callsDistinct_empty.
  unfold callsOf. cbn. now destruct tcs as [[|]|].
Qed.

Lemma handleSubmit_callsDistinct (outcome : FetchOutcome) (st : State) :
  Forall callsDistinct (messages st) ->
  Forall callsDistinct (messages (handleSubmit outcome st)).
Proof.
  intros H. unfold handleSubmit.
  destruct (negb _ || isStreaming st); [exact H|].
  set (st1 := withIsStreaming true _).
  assert (H1 : Forall callsDistinct (messages st1))
    by now apply (appendMessage_callsDistinct user _ None st).
  assert (H2 : Forall callsDistinct (messages (fst (request outcome st1)))).
  { unfold request. destruct outcome as [e|ok status body]; [exact H1|].
    destruct ok; cbn [negb fst]; [|exact H1].
    destruct body as [reads|]; [|exact H1].
    apply readLoop_callsDistinct.
    now apply (appendMessage_callsDistinct assistant _ (Some [])). }
  destruct (request outcome st1) as [st2 [e|]]; cbn [fst] in H2.
  - change (messages (withIsStreaming false ?s)) with (messages s).
    now apply (appendMessage_callsDistinct system _ None).
  - exact H2.
Qed.

(** C4.  In every message the tool calls are stored trimmed and no two
    of them have the same (name, description) pair: the line loop,
    [handleSubmit] and [handleClear] keep it so.  The same annotation
    line read twice in succession leaves the state that one reading
    leaves, and on a message without calls it leaves one call. *)
Theorem tool_calls_are_deduplicated
        (st : State) (lines : list string) (outcome : FetchOutcome)
        (line c txt : string) :
  Forall callsDistinct (messages st) ->
  eventContent line = Some c ->
  Pattern.regexMatch c = Some txt ->
  Forall callsDistinct (messages (processLines st lines))
  /\ Forall callsDistinct (messages (handleSubmit outcome st))
  /\ Forall callsDistinct (messages (handleClear st))
  /\ processLines st [line; line] = processLines st [line]
  /\ forall init m,
       messages st = (init ++ [m])%list -> role m = assistant ->
       callsOf m = [] ->
       messages (processLines st [line; line]) =
       (init ++ [mkMessage assistant (content m) (timestamp m)
                   (Some [mkToolCall (Js.trim (fst (extractToolCall txt)))
                                     (Js.trim (snd (extractToolCall txt)))
                                     (now (dates st))])])%list.
Proof.
  intros H E M.
  split; [now apply processLines_callsDistinct|].
  split; [now apply handleSubmit_callsDistinct|].
  split; [constructor|].
  assert (Hline : forall s, processLine s line =
                            recordToolCall (fst (extractToolCall txt))
                                           (snd (extractToolCall txt))
                                           (withHasSeenToolCalls true s)).
  { intros s. rewrite (processLine_event _ _ _ E). unfold onEvent.
    rewrite (regexMatch_nonEmpty _ _ M).
    now rewrite (onContent_call _ _ (regexMatch_includes _ _ M)), M. }
  set (n := fst (extractToolCall txt)) in *.
  set (d := snd (extractToolCall txt)) in *.
  assert (Htwice : forall s init m,
             messages s = (init ++ [m])%list -> role m = assistant ->
             processLines s [line; line] = processLines s [line]).
  { intros s init m Hinit Hrole. unfold processLines. cbn [fold_left].
    rewrite !Hline.
    rewrite (recordToolCall_snoc (withHasSeenToolCalls true s) init m n d
               Hinit Hrole).
    destruct (isDuplicate (callsOf m) _) eqn:D.
    - set (m1 := mkMessage _ _ _ _). set (s1 := mkState _ _ _ _ _ _).
      rewrite (recordToolCall_snoc (withHasSeenToolCalls true s1) init m1 n d
                 eq_refl eq_refl).
      change (callsOf m1) with (callsOf m). now rewrite D.
    - set (m1 := mkMessage _ _ _ _). set (s1 := mkState _ _ _ _ _ _).
      rewrite (recordToolCall_snoc (withHasSeenToolCalls true s1) init m1 n d
                 eq_refl eq_refl).
      cbn [callsOf toolCalls m1]. now rewrite isDuplicate_recorded. }
  split.
  - destruct (recordToolCall_cases n d (withHasSeenToolCalls true st))
      as [Hsame | (init & m & Hinit & Hrole)].
    + unfold processLines. cbn [fold_left]. rewrite !Hline, Hsame.
      exact Hsame.
    + exact (Htwice st init m Hinit Hrole).
  - intros init m Hinit Hrole Hcalls.
    rewrite (Htwice st init m Hinit Hrole).
    unfold processLines. cbn [fold_left]. rewrite Hline.
    rewrite (recordToolCall_snoc (withHasSeenToolCalls true st) init m n d
               Hinit Hrole).
    now rewrite Hcalls.
Qed.

End Dedup.

(* ================================================================= *)
(** ** The content of the message in progress *)

Section Accumulation.

Lemma synced_inv (st : State) :
  synced st ->
  exists init m, messages st = (init ++ [m])%list /\ role m = assistant
                 /\ content m = assistantMessage st.
Proof.
  intros (m & L & R & C). destruct (lastMessage_inv _ _ L) as [init H].
  now exists init, m.
Qed.

Lemma synced_snoc (st : State) (init : list Message) (m : Message) :
  messages st = (init ++ [m])%list -> role m = assistant ->
  content m = assistantMessage st -> synced st.
Proof.
  intros H R C. exists m. now rewrite H, lastMessage_snoc.
Qed.

Lemma synced_lastContent (st : State) :
  synced st -> lastContent st = Some (assistantMessage st).
Proof.
  intros (m & L & _ & C). unfold lastContent. now rewrite L, <- C.
Qed.

Lemma prefixOf_refl (s : string) : prefixOf s s.
Proof. exists EmptyString. now rewrite append_empty_r. Qed.

Lemma prefixOf_trans (a b c : string) :
  prefixOf a b -> prefixOf b c -> prefixOf a c.
Proof.
  intros [r ->] [r' ->]. exists (r ++ r'). apply append_assoc.
Qed.

Lemma openStream_synced (st : State) :
  synced (openStream (withHasSeenToolCalls false
                        (withAssistantMessage EmptyString st))).
Proof.
  eapply (synced_snoc _ (messages st)); reflexivity.
Qed.

(** One turn keeps the last message and the accumulated text in step;
    the transcript does not get shorter, and when it keeps its length
    the accumulated text is extended. *)
Lemma turn_synced (st st' : State) :
  turn st st' -> synced st ->
  synced st'
  /\ length (messages st) <= length (messages st')
  /\ (length (messages st') = length (messages st) ->
      prefixOf (assistantMessage st) (assistantMessage st')).
Proof.
  intros T Hs. destruct (synced_inv _ Hs) as (init & m & Hinit & Hrole & Hc).
  destruct T as [| |n d|c Hseen|c].
  - split; [exact Hs|]. split; [lia|]. intros _. apply prefixOf_refl.
  - split; [exact Hs|]. split; [cbn; lia|]. intros _. apply prefixOf_refl.
  - rewrite (recordToolCall_snoc (withHasSeenToolCalls true st) init m n d
               Hinit Hrole).
    destruct (isDuplicate _ _); cbn [messages assistantMessage];
      (split; [eapply (synced_snoc _ init); [reflexivity | reflexivity | exact Hc]|]);
      (split; [rewrite Hinit, !length_app; cbn; lia|]);
      intros _; apply prefixOf_refl.
  - split; [eapply (synced_snoc _ (messages st)); reflexivity|].
    cbn. rewrite length_app. cbn. split; [lia|]. intros H. exfalso. lia.
  - rewrite (accumulate_snoc _ _ _ _ Hinit Hrole).
    cbn [messages assistantMessage].
    split; [eapply (synced_snoc _ init); reflexivity|].
    split; [rewrite Hinit, !length_app; cbn; lia|].
    intros _. now exists c.
Qed.

Lemma processLines_synced (lines : list string) (st : State) :
  synced st ->
  synced (processLines st lines)
  /\ length (messages st) <= length (messages (processLines st lines))
  /\ (length (messages (processLines st lines)) = length (messages st) ->
      prefixOf (assistantMessage st) (assistantMessage (processLines st lines))).
Proof.
  revert st; induction lines as [|l ls IH]; intros st Hs.
  - split; [exact Hs|]. split; [cbn; lia|]. intros _. apply prefixOf_refl.
  - rewrite processLines_cons.
    destruct (turn_synced _ _ (processLine_turn st l) Hs) as (H1 & H2 & H3).
    destruct (IH _ H1) as (K1 & K2 & K3).
    split; [exact K1|]. split; [lia|].
    intros E. apply (prefixOf_trans _ (assistantMessage (processLine st l))).
    + apply H3. lia.
    + apply K3. lia.
Qed.

(** C7.  All along a stream the content of the last message is the
    accumulated text.  As long as no new message is appended that
    content only grows: what it was is a prefix of what it is later.
    And a text event that does not open a new message writes the whole
    accumulated text, the old one followed by the chunk, as the content
    of the last message. *)
Theorem content_only_grows (st : State) (lines more : list string) :
  let s1 := streamState st lines in
  let s2 := processLines s1 more in
  (exists old new,
      lastContent s1 = Some old /\ old = assistantMessage s1
      /\ lastContent s2 = Some new /\ new = assistantMessage s2
      /\ (length (messages s2) = length (messages s1) -> prefixOf old new))
  /\ forall line c,
       eventContent line = Some c ->
       Js.includes c Pattern.marker = false ->
       hasSeenToolCalls s1 && Js.nonEmpty (Js.trim c) = false ->
       assistantMessage (processLine s1 line) = assistantMessage s1 ++ c
       /\ lastContent (processLine s1 line) = Some (assistantMessage s1 ++ c)
       /\ length (messages (processLine s1 line)) = length (messages s1).
Proof.
  intros s1 s2.
  assert (H1 : synced s1).
  { unfold s1, streamState. apply processLines_synced, openStream_synced. }
  destruct (processLines_synced more s1 H1) as (H2 & _ & Hgrow).
  split.
  - exists (assistantMessage s1), (assistantMessage s2).
    split; [now apply synced_lastContent|]. split; [reflexivity|].
    split; [now apply synced_lastContent|]. split; [reflexivity|].
    exact Hgrow.
  - intros line c E M B.
    destruct (synced_inv _ H1) as (init & m & Hinit & Hrole & Hc).
    rewrite (processLine_event _ _ _ E). unfold onEvent.
    destruct c as [|x c].
    + cbn [Js.nonEmpty]. rewrite append_empty_r.
      split; [reflexivity|]. split; [now apply synced_lastContent|reflexivity].
    + cbn [Js.nonEmpty]. rewrite (onContent_prose _ _ M), B. cbn [caught].
      rewrite (accumulate_snoc _ _ _ _ Hinit Hrole).
      cbn [messages assistantMessage]. split; [reflexivity|].
      split.
      * unfold lastContent. cbn [messages]. now rewrite lastMessage_snoc.
      * rewrite Hinit, !length_app. reflexivity.
Qed.

End Accumulation.

(* ================================================================= *)
(** ** Failures of the transport *)

Section Transport.

Lemma readLoop_failure (fragments : list string) (e : Exception)
      (rest : list Read) (st : State) :
  readLoop (map Fragment fragments ++ ReadFailure e :: rest)%list st =
  (processLines st (linesRead fragments), Some e).
Proof.
  revert st; induction fragments as [|f fs IH]; intros st; [reflexivity|].
  cbn [map app readLoop]. rewrite IH. unfold linesRead. cbn [flat_map].
  now rewrite processLines_app.
Qed.

(** C6.  When the request is rejected, when the response has a status
    that is not a success, and when a read of the body is rejected, the
    run ends there: one system message with the description of the
    error is appended to the transcript as it stood when the error came
    (the user message and, for a failed read, the assistant message
    with what it had accumulated), and [isStreaming] is false again. *)
Theorem transport_error_is_reported
        (st : State) (e : Exception) (status : nat)
        (body : option (list Read)) (fragments : list string)
        (rest : list Read) :
  Js.nonEmpty (Js.trim (researchIdea (settings st))) = true ->
  isStreaming st = false ->
  let sent := withIsStreaming true
                (appendMessage user (userContent (settings st)) None st) in
  let reported (outcome : FetchOutcome) (reached : State) (err : Exception) :=
    messages (handleSubmit outcome st) =
      (messages reached ++
       [mkMessage system (errorContent err) (now (dates reached)) None])%list
    /\ isStreaming (handleSubmit outcome st) = false in
  reported (FetchRejected e) sent e
  /\ reported (Response false status body) sent
       (ErrorObject ("HTTP error! status: " ++ Js.ofNat status))
  /\ reported (Response true status
                 (Some (map Fragment fragments ++ ReadFailure e :: rest)%list))
       (streamState sent (linesRead fragments)) e.
Proof.
  intros Hidea Hidle sent reported. unfold reported, handleSubmit.
  rewrite Hidea, Hidle. cbn [negb orb]. fold sent.
  split; [|split].
  - cbn [request]. now split.
  - cbn [request negb]. now split.
  - cbn [request negb]. rewrite readLoop_failure. now split.
Qed.

End Transport.

(* ================================================================= *)
(** ** What a turn leaves in place *)

Section Frame.

Lemma extends_refl (m : Message) : extends m m.
Proof.
  split; [reflexivity|]. split; [reflexivity|].
  exists []. now rewrite app_nil_r.
Qed.

Lemma extends_trans (a b c : Message) :
  extends a b -> extends b c -> extends a c.
Proof.
  intros (R1 & T1 & more1 & C1) (R2 & T2 & more2 & C2).
  split; [congruence|]. split; [congruence|].
  exists (more1 ++ more2)%list. now rewrite C2, C1, app_assoc.
Qed.

(** One turn leaves [isStreaming] and the settings alone, and does one
    of three things to the transcript: nothing, a change of the last
    message, which is the assistant's and keeps its role, timestamp and
    tool calls, or the addition of one assistant message. *)
Lemma turn_shape (st st' : State) :
  turn st st' ->
  isStreaming st' = isStreaming st /\ settings st' = settings st /\
  (messages st' = messages st
   \/ (exists init m m',
         messages st = (init ++ [m])%list /\
         messages st' = (init ++ [m'])%list /\
         role m = assistant /\ extends m m')
   \/ (exists new,
         messages st' = (messages st ++ [new])%list /\ role new = assistant)).
Proof.
  intros T. destruct T as [| |n d|c Hseen|c].
  - now repeat split; left.
  - now repeat split; left.
  - set (s1 := withHasSeenToolCalls true st).
    destruct (recordToolCall_cases n d s1) as [-> | (init & m & Hinit & Hrole)].
    + now repeat split; left.
    + rewrite (recordToolCall_snoc _ _ _ _ _ Hinit Hrole).
      destruct (isDuplicate _ _); (split; [reflexivity|]);
        (split; [reflexivity|]); right; left;
        eexists init, m, _; (split; [exact Hinit|]);
        (split; [reflexivity|]); (split; [exact Hrole|]);
        (split; [now rewrite Hrole|]); (split; [reflexivity|]).
      * exists []. cbn. now rewrite app_nil_r.
      * eexists. reflexivity.
  - split; [reflexivity|]. split; [reflexivity|]. right; right.
    eexists. split; reflexivity.
  - destruct (accumulate_cases c st) as [-> | (init & m & Hinit & Hrole)].
    + now repeat split; left.
    + rewrite (accumulate_snoc _ _ _ _ Hinit Hrole).
      split; [reflexivity|]. split; [reflexivity|]. right; left.
      eexists init, m, _. split; [exact Hinit|]. split; [reflexivity|].
      split; [exact Hrole|]. split; [now rewrite Hrole|].
      split; [reflexivity|]. exists []. cbn.
      unfold callsOf. cbn. now rewrite app_nil_r.
Qed.

Lemma processLines_frame (lines : list string) (st : State) :
  isStreaming (processLines st lines) = isStreaming st
  /\ settings (processLines st lines) = settings st.
Proof.
  revert st; induction lines as [|l ls IH]; intros st; [now split|].
  rewrite processLines_cons.
  destruct (turn_shape _ _ (processLine_turn st l)) as (H1 & H2 & _).
  destruct (IH (processLine st l)) as [K1 K2]. split; congruence.
Qed.

Lemma turn_kept (pre : list Message) (m : Message) (st st' : State) :
  turn st st' -> kept pre m (messages st) -> kept pre m (messages st').
Proof.
  intros T (m1 & added & Hms & Hext & Hroles).
  destruct (turn_shape _ _ T) as (_ & _ & [H | [H | H]]).
  - rewrite H. now exists m1, added.
  - destruct H as (init & x & x' & Hinit & Hnew & Hrole & Hx).
    rewrite Hnew. rewrite Hms in Hinit.
    destruct added as [|y ys _] using rev_ind.
    + apply app_inj_tail in Hinit as [-> ->].
      exists x', []. split; [reflexivity|].
      split; [now apply (extends_trans _ x)|constructor].
    + change (pre ++ m1 :: ys ++ [y])%list
        with (pre ++ (m1 :: ys) ++ [y])%list in Hinit.
      rewrite app_assoc in Hinit.
      apply app_inj_tail in Hinit as [<- <-].
      exists m1, (ys ++ [x'])%list. split; [now rewrite <- app_assoc|].
      split; [exact Hext|].
      apply Forall_app in Hroles as [Hys _].
      apply Forall_app. split; [exact Hys|].
      constructor; [|constructor]. destruct Hx as [-> _]. exact Hrole.
  - destruct H as (new & Hnew & Hrole). rewrite Hnew, Hms.
    exists m1, (added ++ [new])%list. split; [now rewrite <- app_assoc|].
    split; [exact Hext|].
    apply Forall_app. split; [exact Hroles|]. now repeat constructor.
Qed.

Lemma processLines_kept (pre : list Message) (m : Message)
      (lines : list string) (st : State) :
  kept pre m (messages st) -> kept pre m (messages (processLines st lines)).
Proof.
  revert st; induction lines as [|l ls IH]; intros st H; [exact H|].
  rewrite processLines_cons. apply IH.
  exact (turn_kept _ _ _ _ (processLine_turn st l) H).
Qed.

Lemma readLoop_kept (pre : list Message) (m : Message)
      (reads : list Read) (st : State) :
  kept pre m (messages st) -> kept pre m (messages (fst (readLoop reads st))).
Proof.
  revert st; induction reads as [|[chunk|e] rs IH]; intros st H;
    cbn [readLoop fst]; [exact H | | exact H].
  apply IH. now apply processLines_kept.
Qed.

Lemma readLoop_frame (reads : list Read) (st : State) :
  isStreaming (fst (readLoop reads st)) = isStreaming st
  /\ settings (fst (readLoop reads st)) = settings st.
Proof.
  revert st; induction reads as [|[chunk|e] rs IH]; intros st;
    cbn [readLoop fst]; [now split | | now split].
  destruct (IH (processChunk st chunk)) as [H1 H2].
  destruct (processLines_frame (linesOf chunk) st) as [K1 K2].
  unfold processChunk in *. split; congruence.
Qed.

Lemma turn_length (st st' : State) :
  turn st st' ->
  length (messages st) <= length (messages st') <= S (length (messages st)).
Proof.
  intros T. destruct (turn_shape _ _ T) as (_ & _ & [H | [H | H]]).
  - rewrite H. lia.
  - destruct H as (init & x & x' & -> & -> & _). rewrite !length_app. cbn. lia.
  - destruct H as (new & -> & _). rewrite length_app. cbn. lia.
Qed.

End Frame.

(* ================================================================= *)
(** ** Messages along a stream *)

Section Growth.

(** X7.  Whatever the lines, the loop leaves every message but the last
    one as it is; the message that was last keeps its role and its
    timestamp, and its tool calls are the old ones followed by more;
    and every message that comes after it is an assistant message. *)
Theorem messages_only_extend
        (st : State) (lines : list string) (init : list Message) (m : Message) :
  messages st = (init ++ [m])%list ->
  exists m' added,
    messages (processLines st lines) = (init ++ m' :: added)%list
    /\ role m' = role m /\ timestamp m' = timestamp m
    /\ (exists more, callsOf m' = (callsOf m ++ more)%list)
    /\ Forall (fun x => role x = assistant) added.
Proof.
  intros H.
  assert (K : kept init m (messages st)).
  { exists m, []. split; [exact H|]. split; [apply extends_refl|constructor]. }
  destruct (processLines_kept init m lines st K)
    as (m' & added & Hms & (R & T & C) & Hroles).
  now exists m', added.
Qed.

(** X8.  The loop never removes a message, and it adds at most one for
    each line. *)
Theorem transcript_grows_by_lines (st : State) (lines : list string) :
  length (messages st) <= length (messages (processLines st lines))
  /\ length (messages (processLines st lines))
     <= length (messages st) + length lines.
Proof.
  revert st; induction lines as [|l ls IH]; intros st.
  - cbn. lia.
  - rewrite processLines_cons.
    destruct (turn_length _ _ (processLine_turn st l)) as [H1 H2].
    destruct (IH (processLine st l)) as [K1 K2].
    cbn [length]. lia.
Qed.

(** X9.  From the opening of a stream to its end, after every line, the
    last message is the assistant's and [isStreaming] is set: the
    [Generating...] row is displayed all along. *)
Theorem spinner_shown_while_streaming (st : State) (lines : list string) :
  isStreaming st = true ->
  showsSpinner (streamState st lines) = true.
Proof.
  intros H. unfold showsSpinner, streamState.
  set (s0 := openStream _).
  destruct (processLines_frame lines s0) as [F _].
  destruct (processLines_synced lines s0 (openStream_synced st))
    as ((m & L & R & _) & _).
  rewrite F, L, R. change (isStreaming s0) with (isStreaming st).
  now rewrite H.
Qed.

(** X1.  While a stream is read no control of the form can be used: an
    event of the user, whichever it is, leaves the state as it is. *)
Theorem form_is_locked_while_streaming
        (st : State) (lines : list string) (ev : UiEvent) :
  isStreaming st = true ->
  (forall c, enabled c (streamState st lines) = false)
  /\ dispatch (streamState st lines) ev = streamState st lines.
Proof.
  intros H.
  assert (F : isStreaming (streamState st lines) = true).
  { unfold streamState.
    destruct (processLines_frame lines
                (openStream (withHasSeenToolCalls false
                               (withAssistantMessage EmptyString st)))) as [F _].
    rewrite F. exact H. }
  assert (E : forall c, enabled c (streamState st lines) = false).
  { intros c. unfold enabled. rewrite F.
    destruct c; cbn [negb orb andb]; try reflexivity. apply andb_false_r. }
  split; [exact E|]. unfold dispatch. now rewrite E.
Qed.

End Growth.

(* ================================================================= *)
(** ** The form: submitting, clearing, counting *)

Section Form.

Lemma nonEmpty_trim (s : string) :
  Js.nonEmpty (Js.trim s) = negb (allWhiteSpace s).
Proof.
  unfold Js.trim. induction s as [|c r IH]; [reflexivity|].
  cbn [Js.trimStart allWhiteSpace].
  destruct (Js.isWhiteSpace c) eqn:W; [exact IH|].
  destruct (trimEnd_head c r W) as [r' ->]. reflexivity.
Qed.

Lemma enabled_submit (st : State) :
  enabled SubmitButton st =
  negb (isStreaming st) && negb (allWhiteSpace (researchIdea (settings st))).
Proof.
  unfold enabled. rewrite nonEmpty_trim.
  now destruct (isStreaming st), (allWhiteSpace _).
Qed.

(** The guard of line 44 is the condition of line 296 with its two
    sides exchanged. *)
Lemma guard_enabled (st : State) :
  negb (Js.nonEmpty (Js.trim (researchIdea (settings st)))) || isStreaming st
  = negb (enabled SubmitButton st).
Proof.
  unfold enabled. rewrite negb_involutive. apply orb_comm.
Qed.

(** A submission that passes the guard: the user message is appended,
    then come the assistant messages of the stream, then the system
    message of an error if there was one; the settings stay and
    [isStreaming] is false in the end. *)
Lemma handleSubmit_shape (outcome : FetchOutcome) (st : State) :
  enabled SubmitButton st = true ->
  exists replies tail,
    messages (handleSubmit outcome st) =
      (messages st
       ++ mkMessage user (userContent (settings st)) (now (dates st)) None
       :: replies ++ tail)%list
    /\ Forall (fun m => role m = assistant) replies
    /\ (tail = [] \/
        exists e t, tail = [mkMessage system (errorContent e) t None])
    /\ isStreaming (handleSubmit outcome st) = false
    /\ settings (handleSubmit outcome st) = settings st.
Proof.
  intros G. unfold handleSubmit. rewrite guard_enabled, G. cbn [negb].
  set (u := mkMessage user _ _ _).
  set (sent := withIsStreaming true _).
  assert (Hsent : messages sent = (messages st ++ [u])%list) by reflexivity.
  assert (R : exists replies,
             messages (fst (request outcome sent)) =
               (messages st ++ u :: replies)%list
             /\ Forall (fun m => role m = assistant) replies
             /\ settings (fst (request outcome sent)) = settings st).
  { unfold request. destruct outcome as [e|ok status body].
    - exists []. now repeat split.
    - destruct ok; cbn [negb]; [|exists []; now repeat split].
      destruct body as [reads|]; [|exists []; now repeat split].
      set (s1 := withHasSeenToolCalls false _).
      assert (K : kept (messages st ++ [u])%list
                    (mkMessage assistant EmptyString (now (dates s1)) (Some []))
                    (messages (openStream s1))).
      { eexists _, []. split; [reflexivity|].
        split; [apply extends_refl|constructor]. }
      destruct (readLoop_kept _ _ reads _ K)
        as (m' & added & Hms & (Hr & _) & Hroles).
      destruct (readLoop_frame reads (openStream s1)) as [_ Hset].
      exists (m' :: added). rewrite Hms, <- app_assoc. split; [reflexivity|].
      split; [now constructor | exact Hset]. }
  destruct R as (replies & Hms & Hroles & Hset).
  destruct (request outcome sent) as [st2 [e|]]; cbn [fst] in *.
  - exists replies, [mkMessage system (errorContent e) (now (dates st2)) None].
    cbn. rewrite Hms, <- app_assoc. cbn.
    split; [reflexivity|]. split; [exact Hroles|].
    split; [right; now exists e, (now (dates st2))|]. now split.
  - exists replies, []. cbn. rewrite Hms, app_nil_r.
    split; [reflexivity|]. split; [exact Hroles|]. split; [now left|].
    now split.
Qed.

(** X6.  A submission that passes the guard leaves every earlier
    message as it is and appends, in this order: the user message, the
    assistant messages of the stream, and at most one system message,
    which is the last one. *)
Theorem submission_appends_a_run (outcome : FetchOutcome) (st : State) :
  enabled SubmitButton st = true ->
  exists replies tail,
    messages (handleSubmit outcome st) =
      (messages st
       ++ mkMessage user (userContent (settings st)) (now (dates st)) None
       :: replies ++ tail)%list
    /\ Forall (fun m => role m = assistant) replies
    /\ (tail = [] \/
        exists e t, tail = [mkMessage system (errorContent e) t None]).
Proof.
  intros G.
  destruct (handleSubmit_shape outcome st G) as (replies & tail & H1 & H2 & H3 & _).
  now exists replies, tail.
Qed.

(** X4.  [handleSubmit] does nothing exactly when the submit button is
    disabled, that is, while a stream is read or when the research idea
    holds nothing but white space. *)
Theorem submit_guard_is_the_button (outcome : FetchOutcome) (st : State) :
  (handleSubmit outcome st = st <-> enabled SubmitButton st = false)
  /\ (enabled SubmitButton st = false <->
      isStreaming st = true
      \/ allWhiteSpace (researchIdea (settings st)) = true).
Proof.
  split.
  - split.
    + intros H. destruct (enabled SubmitButton st) eqn:G; [|reflexivity].
      destruct (handleSubmit_shape outcome st G) as (replies & tail & Hms & _).
      rewrite H in Hms. apply (f_equal (@length Message)) in Hms.
      rewrite length_app in Hms. cbn in Hms. lia.
    + intros G. unfold handleSubmit. now rewrite guard_enabled, G.
  - rewrite enabled_submit.
    destruct (isStreaming st), (allWhiteSpace _); cbn; intuition congruence.
Qed.

(** X5.  After a submission that passed the guard, whatever the request
    met, [isStreaming] is false and the settings are the ones that were
    submitted: the row [Generating...] is gone, and both the clear
    button and the submit button can be used. *)
Theorem form_is_released_after_a_run (outcome : FetchOutcome) (st : State) :
  enabled SubmitButton st = true ->
  let final := handleSubmit outcome st in
  isStreaming final = false
  /\ settings final = settings st
  /\ showsSpinner final = false
  /\ enabled ClearButton final = true
  /\ enabled SubmitButton final = true.
Proof.
  intros G final.
  destruct (handleSubmit_shape outcome st G)
    as (replies & tail & Hms & _ & _ & Hs & Hset).
  fold final in Hms, Hs, Hset.
  split; [exact Hs|]. split; [exact Hset|].
  split; [unfold showsSpinner; now rewrite Hs|].
  split.
  - unfold enabled. rewrite Hs, Hms, length_app. cbn [length negb andb].
    rewrite andb_true_r. apply Nat.ltb_lt. lia.
  - rewrite enabled_submit in *. rewrite Hs, Hset.
    apply andb_true_iff in G as [_ G]. now rewrite G.
Qed.

(** X17.  Clearing empties the transcript and the research idea and
    keeps the domain and the number.  After it neither the submit
    button nor the clear button can be used, a submission does nothing,
    and clearing again changes nothing. *)
Theorem clear_resets_the_form (outcome : FetchOutcome) (st : State) :
  let cleared := handleClear st in
  messages cleared = []
  /\ settings cleared
     = mkSettings (domain (settings st)) (numHypotheses (settings st))
                  EmptyString
  /\ enabled SubmitButton cleared = false
  /\ enabled ClearButton cleared = false
  /\ handleSubmit outcome cleared = cleared
  /\ handleClear cleared = cleared.
Proof.
  intros cleared. split; [reflexivity|]. split; [reflexivity|].
  assert (E : enabled SubmitButton cleared = false).
  { rewrite enabled_submit. cbn. apply andb_false_r. }
  split; [exact E|]. split; [reflexivity|]. split; [|reflexivity].
  unfold handleSubmit. now rewrite guard_enabled, E.
Qed.

(** X3.  Between the bounds the two buttons undo each other: when the
    number is from 1 to 9 a click on plus followed by a click on minus
    gives the state back, and so does minus followed by plus when the
    number is from 2 to 10. *)
Theorem plus_and_minus_undo_each_other (st : State) :
  (1 <= numHypotheses (settings st) < 10 ->
   decrement (increment st) = st)
  /\ (1 < numHypotheses (settings st) <= 10 ->
      increment (decrement st) = st).
Proof.
  destruct st as [ms str [d n i] acc seen k].
  unfold decrement, increment, withNumHypotheses, withSettings.
  cbn -[Nat.max Nat.min Nat.sub Nat.add].
  split; intros H; do 2 f_equal; lia.
Qed.

Lemma changeNumber_bound (value : string) (st : State) :
  1 <= numHypotheses (settings st) <= 10 ->
  1 <= numHypotheses (settings (changeNumber value st)) <= 10.
Proof.
  intros H. unfold changeNumber.
  destruct (parseInt value) as [val|]; [|exact H].
  destruct (1 <=? val)%Z eqn:L; [|exact H].
  destruct (val <=? 10)%Z eqn:U; [|exact H].
  cbn. apply Z.leb_le in L, U. lia.
Qed.

Lemma handle_atRest (ev : UiEvent) (st : State) :
  enabled (controlOf ev) st = true -> atRest st -> atRest (handle ev st).
Proof.
  intros E [Hn Hs]. destruct ev; cbn [handle controlOf] in *.
  - now split.
  - split; [cbn -[Nat.max Nat.min Nat.sub Nat.add]; lia | exact Hs].
  - split; [now apply changeNumber_bound|].
    unfold changeNumber. destruct (parseInt value) as [val|]; [|exact Hs].
    now destruct ((1 <=? val)%Z && (val <=? 10)%Z).
  - split; [cbn -[Nat.max Nat.min Nat.sub Nat.add]; lia | exact Hs].
  - now split.
  - destruct (handleSubmit_shape outcome st E) as (_ & _ & _ & _ & _ & H1 & H2).
    split; [now rewrite H2 | exact H1].
  - now split.
Qed.

(** X2.  Whatever the user does with the form, starting from the state
    in which the component is mounted, the number of hypotheses stays
    from 1 to 10, and [isStreaming] is false when a handler has
    returned. *)
Theorem number_stays_in_range (events : list UiEvent) :
  1 <= numHypotheses (settings (session events)) <= 10
  /\ isStreaming (session events) = false.
Proof.
  unfold session.
  assert (H : atRest initialState) by (split; [cbn; lia | reflexivity]).
  revert H. generalize initialState.
  induction events as [|ev evs IH]; intros st H; [exact H|].
  cbn [fold_left]. apply IH. unfold dispatch.
  destruct (enabled (controlOf ev) st) eqn:E; [|exact H].
  now apply handle_atRest.
Qed.

(** X18.  Whatever the user does with the form, a transcript that is
    not empty begins with a user message. *)
Theorem transcript_begins_with_the_user (events : list UiEvent) :
  match messages (session events) with
  | [] => True
  | first :: _ => role first = user
  end.
Proof.
  unfold session.
  assert (H : match messages initialState with
              | [] => True | first :: _ => role first = user end) by exact I.
  revert H. generalize initialState.
  induction events as [|ev evs IH]; intros st H; [exact H|].
  cbn [fold_left]. apply IH. unfold dispatch.
  destruct (enabled (controlOf ev) st) eqn:E; [|exact H].
  destruct ev; cbn [handle controlOf] in *; try exact H.
  - unfold changeNumber. destruct (parseInt value) as [val|]; [|exact H].
    now destruct ((1 <=? val)%Z && (val <=? 10)%Z).
  - destruct (handleSubmit_shape outcome st E) as (replies & tail & -> & _).
    destruct (messages st); [reflexivity | exact H].
  - exact I.
Qed.

End Form.

(* ================================================================= *)
(** ** Events without text *)

Section Values.

Local Arguments Ascii.eqb : simpl never.

(** What a line does, by the truthy content that it carries. *)
Lemma processLine_value (st : State) (line : string) :
  processLine st line =
  match eventValue line with
  | Some v => caught (onContent v st)
  | None => st
  end.
Proof.
  unfold processLine, eventValue, tryBody.
  destruct (Js.startsWith line "data: "); [|reflexivity].
  destruct (String.eqb _ _); [reflexivity|].
  destruct (JSON_parse _) as [parsed|]; [|reflexivity].
  destruct (Json.deltaContent parsed) as [c|]; [|reflexivity].
  destruct (Json.truthy c) eqn:T; [|reflexivity].
  destruct c; [reflexivity | discriminate T].
Qed.

(** X13.  The lines that carry no truthy content (lines without the
    [data: ] prefix, the sentinel, payloads that are not JSON, events
    without content) can be taken out of the input: what is left gives
    the same state. *)
Theorem lines_without_content_are_inert (st : State) (lines : list string) :
  processLines st lines =
  processLines st
    (filter (fun l => match eventValue l with Some _ => true | None => false end)
            lines).
Proof.
  revert st; induction lines as [|l ls IH]; intros st; [reflexivity|].
  cbn [filter]. rewrite processLines_cons, processLine_value.
  destruct (eventValue l) eqn:E.
  - rewrite processLines_cons, processLine_value, E. apply IH.
  - apply IH.
Qed.

(** X12.  An event whose JSON is [null], has no [choices], an empty
    [choices], a first choice without [delta], or a [delta] whose
    [content] is missing, [null] or the empty string, changes
    nothing. *)
Theorem event_without_content_changes_nothing
        (st : State) (line : string) (parsed : Json.value) :
  Js.startsWith line "data: " = true ->
  JSON_parse (Js.slice 6 line) = Some parsed ->
  parsed = Json.JNull
  \/ (exists fields,
        parsed = Json.JObj fields /\
        (Json.lookup "choices" fields = None
         \/ Json.lookup "choices" fields = Some (Json.JArr [])))
  \/ (exists fields choice rest,
        parsed = Json.JObj fields /\
        Json.lookup "choices" fields
          = Some (Json.JArr (Json.JObj choice :: rest)) /\
        (Json.lookup "delta" choice = None
         \/ exists delta,
             Json.lookup "delta" choice = Some (Json.JObj delta) /\
             (Json.lookup "content" delta = None
              \/ Json.lookup "content" delta = Some Json.JNull
              \/ Json.lookup "content" delta
                   = Some (Json.JStr EmptyString)))) ->
  processLine st line = st.
Proof.
  intros Hp Hj Hshape. rewrite processLine_value. unfold eventValue.
  rewrite Hp, Hj. destruct (String.eqb _ _); [reflexivity|].
  destruct Hshape as [-> | [(fields & -> & [H | H]) | H]].
  - reflexivity.
  - unfold Json.deltaContent. cbn [Json.prop]. now rewrite H.
  - unfold Json.deltaContent. cbn [Json.prop]. now rewrite H.
  - destruct H as (fields & choice & rest & -> & Hc & [Hd | (delta & Hd & Hk)]);
      unfold Json.deltaContent; cbn [Json.prop]; rewrite Hc;
      cbn [Json.optChain Json.index0 Json.prop]; rewrite Hd;
      cbn [Json.optChain Json.prop]; [reflexivity|].
    destruct Hk as [-> | [-> | ->]]; reflexivity.
Qed.

(** X10.  Content that is a number, a boolean or an object makes the
    call of [includes] throw; the exception is caught and the event
    changes nothing. *)
Theorem scalar_content_changes_nothing
        (st : State) (line : string) (v : Json.value) :
  eventValue line = Some v ->
  (exists repr, v = Json.JNum repr) \/ (exists b, v = Json.JBool b)
  \/ (exists fields, v = Json.JObj fields) ->
  processLine st line = st.
Proof.
  intros E H. rewrite processLine_value, E.
  destruct H as [[r ->] | [[b ->] | [f ->]]]; reflexivity.
Qed.

Lemma toString_strings (parts : list string) :
  Json.toString (Json.JArr (map Json.JStr parts)) = Js.join "," parts.
Proof.
  induction parts as [|a [|b rest] IH]; try reflexivity.
  change (Json.toString (Json.JArr (map Json.JStr (a :: b :: rest))))
    with (a ++ "," ++ Json.toString (Json.JArr (map Json.JStr (b :: rest)))).
  now rewrite IH.
Qed.

(** X11.  Content that is an array is not passed over.  When one of its
    elements is the marker string, the flag is raised and nothing else
    happens.  Otherwise, after a tool call the event changes nothing,
    and before any tool call the array is added to the text as a
    string: for an array of strings, its elements joined by commas. *)
Theorem array_content_is_joined
        (st : State) (line : string) (elements : list Json.value)
        (parts : list string) :
  eventValue line = Some (Json.JArr elements) ->
  (Json.includesMarker (Json.JArr elements) = Some true ->
   processLine st line = withHasSeenToolCalls true st)
  /\ (Json.includesMarker (Json.JArr elements) = Some false ->
      hasSeenToolCalls st = true -> processLine st line = st)
  /\ (Json.includesMarker (Json.JArr elements) = Some false ->
      hasSeenToolCalls st = false ->
      elements = map Json.JStr parts ->
      processLine st line = accumulate (Js.join "," parts) st).
Proof.
  intros E. rewrite processLine_value, E. unfold onContent.
  split; [|split].
  - now intros ->.
  - intros -> ->. reflexivity.
  - intros -> -> ->. now rewrite toString_strings.
Qed.

End Values.

(* ================================================================= *)
(** ** Lines, annotations and what is displayed *)

Section Decoding.

Local Arguments Ascii.eqb : simpl never.

Lemma LF_nonEmpty : String Js.LF EmptyString <> EmptyString.
Proof. discriminate. Qed.

(** X14.  The lines of a chunk, joined by line feeds, are the chunk,
    and no line holds a line feed: a chunk with [n] line feeds gives
    [n + 1] lines, the last one being what follows the last line
    feed. *)
Theorem lines_rebuild_the_chunk (chunk : string) :
  Js.join (String Js.LF EmptyString) (linesOf chunk) = chunk
  /\ Forall (fun l => Js.includes l (String Js.LF EmptyString) = false)
            (linesOf chunk).
Proof.
  split; [apply (join_split _ LF_nonEmpty)|].
  induction chunk as [|c r IH]; [now repeat constructor|].
  rewrite linesOf_cons. destruct (Ascii.eqb Js.LF c) eqn:E.
  - constructor; [reflexivity | exact IH].
  - destruct (linesOf r) as [|h t] eqn:L; [now destruct (linesOf_not_nil r)|].
    inversion_clear IH as [|? ? Hh Ht]. constructor; [|exact Ht].
    cbn [Js.cons_head Js.includes Js.startsWith].
    now rewrite E, Hh.
Qed.

Lemma length_append (a b : string) :
  String.length (a ++ b) = String.length a + String.length b.
Proof. induction a as [|c a IH]; cbn; congruence. Qed.

Lemma startsWith_append_long (p a b : string) :
  String.length p <= String.length a ->
  Js.startsWith (a ++ b) p = Js.startsWith a p.
Proof.
  revert a; induction p as [|x p IH]; intros a H; [reflexivity|].
  destruct a as [|y a]; cbn [String.length] in H; [lia|].
  cbn [append Js.startsWith]. rewrite IH by lia. reflexivity.
Qed.

Lemma startsWith_take (n : nat) (s p : string) :
  Js.startsWith (Js.take n s) p = true -> Js.startsWith s p = true.
Proof.
  revert n s; induction p as [|x p IH]; intros n s H; [reflexivity|].
  destruct n as [|n]; [discriminate|]. destruct s as [|y s]; [discriminate|].
  cbn [Js.take Js.startsWith] in *.
  apply andb_prop in H as [H1 H2]. now rewrite H1, (IH _ _ H2).
Qed.

Lemma take_append (a b : string) : Js.take (String.length a) (a ++ b) = a.
Proof. induction a as [|c a IH]; cbn; congruence. Qed.

Lemma slice_append_add (a b : string) (k : nat) :
  Js.slice (String.length a + k) (a ++ b) = Js.slice k b.
Proof. induction a as [|c a IH]; [reflexivity | exact IH]. Qed.

Lemma indexOf_None (s sub : string) :
  Js.includes s sub = false -> Js.indexOf s sub = None.
Proof.
  induction s as [|c r IH]; cbn [Js.includes Js.indexOf]; intros H;
    apply orb_false_elim in H as [H1 H2]; rewrite H1; [reflexivity|].
  now rewrite (IH H2).
Qed.

(** Before the first place where the separator stands there is no
    separator. *)
Lemma indexOf_first (s sub : string) (i : nat) :
  sub <> EmptyString ->
  Js.indexOf s sub = Some i -> Js.includes (Js.take i s) sub = false.
Proof.
  intros Hsub.
  assert (E0 : Js.startsWith EmptyString sub = false)
    by (destruct sub; [congruence | reflexivity]).
  revert i; induction s as [|c r IH]; intros i; cbn [Js.indexOf].
  - rewrite E0. discriminate.
  - destruct (Js.startsWith (String c r) sub) eqn:E.
    + intros [= <-]. cbn [Js.take Js.includes]. now rewrite E0.
    + destruct (Js.indexOf r sub) as [j|] eqn:J; [|discriminate].
      intros [= <-]. cbn [Js.take Js.includes]. rewrite (IH j eq_refl).
      rewrite orb_false_r.
      destruct (Js.startsWith (String c (Js.take j r)) sub) eqn:T;
        [|reflexivity].
      now rewrite (startsWith_take (S j) (String c r) sub T) in E.
Qed.

Lemma indexOf_dash (name rest : string) :
  Js.includes (name ++ " -") " - " = false ->
  Js.indexOf (name ++ " - " ++ rest) " - " = Some (String.length name).
Proof.
  induction name as [|c n IH]; intros H; [reflexivity|].
  change (String c n ++ " -") with (String c (n ++ " -")) in H.
  cbn [Js.includes] in H. apply orb_false_elim in H as [H1 H2].
  change (String c n ++ " - " ++ rest) with (String c (n ++ " - " ++ rest)).
  cbn [Js.indexOf].
  assert (E : Js.startsWith (String c (n ++ " - " ++ rest)) " - "
              = Js.startsWith (String c (n ++ " -")) " - ").
  { change (String c (n ++ " - " ++ rest))
      with (String c n ++ (" -" ++ " " ++ rest)).
    rewrite <- append_assoc.
    change (String c (n ++ " -")) with (String c n ++ " -").
    apply startsWith_append_long. rewrite length_append.
    cbn [String.length]. lia. }
  rewrite E, H1, (IH H2). reflexivity.
Qed.

(** The name and the description, by the first place of the
    separator. *)
Lemma extractToolCall_indexOf (text : string) :
  extractToolCall text =
  match Js.indexOf text " - " with
  | None => (text, "Running...")
  | Some i =>
      (Js.take i text,
       if Js.nonEmpty (Js.slice (i + 3) text) then Js.slice (i + 3) text
       else "Running...")
  end.
Proof.
  unfold extractToolCall.
  assert (H := split_indexOf " - " dash_nonEmpty text).
  destruct (Js.indexOf text " - ") as [i|]; rewrite H; [|reflexivity].
  change (String.length " - ") with 3.
  now rewrite (join_split " - " dash_nonEmpty).
Qed.

Lemma regexMatch_after_text (pre s : string) :
  Js.includes pre "[" = false ->
  Pattern.regexMatch (pre ++ s) = Pattern.regexMatch s.
Proof.
  induction pre as [|c pre IH]; intros H; [reflexivity|].
  cbn [Js.includes Js.startsWith] in H.
  apply orb_false_elim in H as [H1 H2]. rewrite andb_true_r in H1.
  change (String c pre ++ s) with (String c (pre ++ s)).
  cbn [Pattern.regexMatch].
  assert (M : Pattern.matchHere (String c (pre ++ s)) = None).
  { unfold Pattern.matchHere, Pattern.opening. cbn [Js.startsWith].
    now rewrite H1. }
  rewrite M. now apply IH.
Qed.

Lemma includes_append_l (a b sub : string) :
  Js.includes (a ++ b) sub = false -> Js.includes b sub = false.
Proof.
  intros H. destruct (Js.includes b sub) eqn:E; [|reflexivity].
  now rewrite (includes_append a b sub E) in H.
Qed.

Lemma includes_char_append (a b : string) (x : ascii) :
  Js.includes (a ++ b) (String x EmptyString)
  = Js.includes a (String x EmptyString)
    || Js.includes b (String x EmptyString).
Proof.
  induction a as [|c a IH]; [reflexivity|].
  change (String c a ++ b) with (String c (a ++ b)).
  cbn [Js.includes Js.startsWith]. rewrite IH. now rewrite orb_assoc.
Qed.

Lemma includes_append_r (a b sub : string) :
  Js.includes a sub = true -> Js.includes (a ++ b) sub = true.
Proof.
  induction a as [|c a IH]; cbn [Js.includes].
  - intros H. apply orb_prop in H as [H | H]; [|discriminate].
    destruct sub; [|discriminate]. now destruct b.
  - intros H. change (String c a ++ b) with (String c (a ++ b)).
    cbn [Js.includes]. apply orb_prop in H as [H | H].
    + assert (P := startsWith_inv _ _ H).
      change (String c (a ++ b)) with (String c a ++ b).
      rewrite P, append_assoc, startsWith_append. reflexivity.
    + rewrite (IH H). apply orb_true_r.
Qed.

(** X15.  An annotation that comes after text without an opening
    bracket is read back as it was written, whatever follows its
    closing bracket: of [[Calling tool: name - description]] the match
    is [name - description] and the extraction gives the name and the
    description; of [[Calling tool: name]] it gives the name and
    [Running...].  The name and the description hold no closing
    bracket, and the first [ - ] is the one after the name. *)
Theorem annotation_is_read_back (pre name desc post : string) :
  Js.includes pre "[" = false ->
  name <> EmptyString ->
  Js.includes name "]" = false ->
  Js.includes (name ++ " -") " - " = false ->
  (desc <> EmptyString -> Js.includes desc "]" = false ->
   Pattern.regexMatch
     (pre ++ Pattern.opening ++ (name ++ " - " ++ desc) ++ "]" ++ post)
   = Some (name ++ " - " ++ desc)
   /\ extractToolCall (name ++ " - " ++ desc) = (name, desc))
  /\ (Pattern.regexMatch (pre ++ Pattern.opening ++ name ++ "]" ++ post)
      = Some name
      /\ extractToolCall name = (name, "Running...")).
Proof.
  intros Hpre Hname Hclose Hdash.
  assert (Found : forall g, g <> EmptyString -> Js.includes g "]" = false ->
            Pattern.regexMatch (pre ++ Pattern.opening ++ g ++ "]" ++ post)
            = Some g).
  { intros g Hg Hc. rewrite (regexMatch_after_text _ _ Hpre).
    assert (M := matchHere_complete g post Hg Hc).
    unfold Pattern.opening in *. cbn [append] in *.
    cbn [Pattern.regexMatch]. now rewrite M. }
  split.
  - intros Hdesc Hd. split.
    + apply Found; [now destruct name|].
      rewrite !includes_char_append, Hclose, Hd. reflexivity.
    + rewrite extractToolCall_indexOf, (indexOf_dash _ _ Hdash).
      rewrite take_append, slice_append_add. cbn [Js.slice append].
      now destruct desc.
  - split; [now apply Found|].
    rewrite extractToolCall_indexOf.
    assert (N : Js.includes name " - " = false).
    { destruct (Js.includes name " - ") eqn:E; [|reflexivity].
      now rewrite (includes_append_r name " -" " - " E) in Hdash. }
    now rewrite (indexOf_None _ _ N).
Qed.

(** X16.  The extraction loses nothing but an empty description: the
    name never holds [ - ], and the annotation text is the name alone,
    or the name followed by [ - ], the description then being
    [Running...], or the name, [ - ] and the description. *)
Theorem extraction_decomposes (text : string) :
  let name := fst (extractToolCall text) in
  let desc := snd (extractToolCall text) in
  Js.includes name " - " = false
  /\ ((text = name /\ desc = "Running...")
      \/ (text = name ++ " - " /\ desc = "Running...")
      \/ (text = name ++ " - " ++ desc /\ desc <> EmptyString)).
Proof.
  cbv zeta. rewrite extractToolCall_indexOf.
  destruct (Js.indexOf text " - ") as [i|] eqn:E; cbn [fst snd].
  - split; [apply (indexOf_first _ _ _ dash_nonEmpty E)|].
    assert (D := indexOf_Some " - " text i E).
    change (String.length " - ") with 3 in D.
    destruct (Js.slice (i + 3) text) as [|c r] eqn:R; cbn [Js.nonEmpty].
    + right; left. now split.
    + right; right. split; [exact D | discriminate].
  - split; [|now left].
    destruct (Js.includes text " - ") eqn:I; [|reflexivity].
    exfalso. clear -E I. induction text as [|c r IH].
    + cbn in I. discriminate.
    + cbn [Js.indexOf Js.includes] in *.
      destruct (Js.startsWith (String c r) " - "); [discriminate|].
      cbn [orb] in I. destruct (Js.indexOf r " - "); [discriminate|].
      now apply IH.
Qed.

(** X19.  While a message stays the last one of a stream its bubble
    does not go back: content that is displayed stays displayed and
    only grows, and once the message has a tool call the bubble does
    not return to [Generating response...]. *)
Theorem bubble_does_not_go_back
        (st : State) (lines more : list string) (m1 m2 : Message) :
  let s1 := streamState st lines in
  let s2 := processLines s1 more in
  length (messages s2) = length (messages s1) ->
  lastMessage (messages s1) = Some m1 ->
  lastMessage (messages s2) = Some m2 ->
  (forall t, assistantBody m1 = Shown t ->
             exists t', assistantBody m2 = Shown t' /\ prefixOf t t')
  /\ (assistantBody m1 <> Placeholder "Generating response..." ->
      assistantBody m2 <> Placeholder "Generating response...").
Proof.
  intros s1 s2 Hlen L1 L2.
  assert (Y1 : synced s1).
  { unfold s1, streamState. apply processLines_synced, openStream_synced. }
  destruct (processLines_synced more s1 Y1) as (Y2 & _ & Hgrow).
  fold s2 in Y2, Hgrow. specialize (Hgrow Hlen).
  destruct Y1 as (x1 & X1 & _ & C1). rewrite L1 in X1. injection X1 as <-.
  destruct Y2 as (x2 & X2 & _ & C2). rewrite L2 in X2. injection X2 as <-.
  rewrite <- C1, <- C2 in Hgrow. destruct Hgrow as [r Hr].
  destruct (lastMessage_inv _ _ L1) as [init Hinit].
  assert (K : kept init m1 (messages s1)).
  { exists m1, []. split; [exact Hinit|].
    split; [apply extends_refl | constructor]. }
  destruct (processLines_kept init m1 more s1 K)
    as (m' & added & Hms & (_ & _ & extra & Hcalls) & _).
  fold s2 in Hms.
  assert (Hm' : m' = m2).
  { rewrite Hms, Hinit, !length_app in Hlen. cbn in Hlen.
    destruct added; [|cbn in Hlen; lia].
    rewrite Hms, lastMessage_snoc in L2. now injection L2. }
  subst m'.
  assert (Shows : Js.nonEmpty (content m1) = true ->
                  Js.nonEmpty (content m2) = true).
  { rewrite Hr. now destruct (content m1). }
  split.
  - intros t Ht. unfold assistantBody in *.
    destruct (Js.nonEmpty (content m1)) eqn:N1; [|discriminate].
    injection Ht as <-. rewrite (Shows eq_refl).
    exists (content m2). split; [reflexivity | now exists r].
  - intros H1 H2. unfold assistantBody in *.
    destruct (Js.nonEmpty (content m2)) eqn:N2; [discriminate|].
    destruct (Js.nonEmpty (content m1)) eqn:N1;
      [discriminate (Shows eq_refl)|].
    unfold callsOf in Hcalls.
    destruct (toolCalls m1) as [[|a l]|]; try (now apply H1);
      destruct (toolCalls m2) as [[|b k]|]; discriminate.
Qed.

End Decoding.

End Interpreter.

(* ================================================================= *)
(** ** Runs on concrete streams *)




(** C2 as stated fails: an event that follows the sentinel, in the same
    chunk or in the next one, is written to the transcript. *)
Lemma line_after_done_is_processed :
  lastContent (processLines Wire.parse Wire.clock (opened Wire.clock)
                 ["data: [DONE]"]) = Some EmptyString
  /\ lastContent (processLines Wire.parse Wire.clock (opened Wire.clock)
                    ["data: [DONE]"; Wire.event "late"]) = Some "late"
  /\ lastContent (fst (readLoop Wire.parse Wire.clock
                         [Fragment (terminated "data: [DONE]");
                          Fragment (terminated (Wire.event "late"))] (opened Wire.clock)))
     = Some "late".
Proof. repeat split; reflexivity. Qed.

Lemma malformed_line_is_skipped_witness :
  let line := "data: {not valid json" in
  Js.startsWith line "data: " = true
  /\ Wire.parse (Js.slice 6 line) = None
  /\ processLines Wire.parse Wire.clock (opened Wire.clock)
       [Wire.event "Hello "; line; Wire.event "world"]
     = processLines Wire.parse Wire.clock
         (processLines Wire.parse Wire.clock (opened Wire.clock) [Wire.event "Hello "])
         [Wire.event "world"].
Proof.
  intros line.
  split; [reflexivity|]. split; [reflexivity|].
  exact (proj1 (proj2 (proj2
    (malformed_line_is_skipped Wire.parse Wire.clock (opened Wire.clock) line
       [Wire.event "Hello "] [Wire.event "world"] []
       eq_refl eq_refl)))).
Defined.


(** The same scenario through [handleSubmit], the body arriving as one
    fragment. *)
Example scenario_through_handleSubmit :
  let body :=
    terminated (Wire.event "Hello ")
    ++ terminated (Wire.event "[Calling tool: Search - querying corpus]")
    ++ terminated (Wire.event "Result: X")
    ++ terminated "data: [DONE]" in
  let final := handleSubmit Wire.parse Wire.clock
                 (Response true 200 (Some [Fragment body]))
                 (typeIdea "idea" initialState) in
  map (fun m => (role m, content m,
                 map (fun call => (name call, description call)) (callsOf m)))
      (messages final)
  = [(user, userContent (settings (typeIdea "idea" initialState)), []);
     (assistant, "Hello ", [("Search", "querying corpus")]);
     (assistant, "Result: X", [])]
  /\ isStreaming final = false.
Proof. split; reflexivity. Qed.


Lemma unmatched_marker_still_breaks_segment_witness :
  let c := "[Calling tool: Search" in
  let st := processLine Wire.parse Wire.clock (opened Wire.clock) (Wire.event "Hello ") in
  eventContent Wire.parse (Wire.event c) = Some c
  /\ Js.includes c Pattern.marker = true
  /\ ~ hasAnnotation c
  /\ messages (processLines Wire.parse Wire.clock st
                 [Wire.event c; Wire.event "world"])
     = (messages st ++ [mkMessage assistant "world" 2 (Some [])])%list.
Proof.
  intros c st.
  assert (N : ~ hasAnnotation c)
    by (apply regexMatch_None_iff; reflexivity).
  split; [reflexivity|]. split; [reflexivity|]. split; [exact N|].
  exact (proj1 (proj2 (proj2 (proj2 (proj2
    (unmatched_marker_still_breaks_segment Wire.parse Wire.clock st
       (Wire.event c) c (Wire.event "world") "world"
       eq_refl eq_refl N eq_refl eq_refl eq_refl)))))).
Defined.

(** C8 as stated fails: with nothing after the first [ - ], the
    description is not that empty text but [Running...]. *)
Lemma empty_description_is_replaced :
  let toolCallText := "Search - " in
  Pattern.regexMatch "[Calling tool: Search - ]" = Some toolCallText
  /\ Js.indexOf toolCallText " - " = Some 6
  /\ Js.slice (6 + 3) toolCallText = EmptyString
  /\ extractToolCall toolCallText = ("Search", "Running...")
  /\ snd (extractToolCall toolCallText) <> Js.slice (6 + 3) toolCallText.
Proof.
  intros toolCallText.
  repeat (split; [reflexivity|]).
  discriminate.
Qed.

Example extractToolCall_further_dashes :
  extractToolCall "Search - querying - the corpus"
  = ("Search", "querying - the corpus").
Proof. reflexivity. Qed.

Example extractToolCall_no_dash :
  extractToolCall "Search" = ("Search", "Running...").
Proof. reflexivity. Qed.

Lemma tool_calls_are_deduplicated_witness :
  let line := Wire.event "[Calling tool: Search - querying corpus]" in
  let st := opened Wire.clock in
  Forall callsDistinct (messages st)
  /\ eventContent Wire.parse line
     = Some "[Calling tool: Search - querying corpus]"
  /\ processLines Wire.parse Wire.clock st [line; line]
     = processLines Wire.parse Wire.clock st [line]
  /\ map callsOf (messages (processLines Wire.parse Wire.clock st [line; line]))
     = [[]; [mkToolCall "Search" "querying corpus" 2]].
Proof.
  intros line st.
  assert (H : Forall callsDistinct (messages st))
    by (repeat constructor).
  split; [exact H|]. split; [reflexivity|].
  destruct (tool_calls_are_deduplicated Wire.parse Wire.clock st []
              (FetchRejected OtherValue) line
              "[Calling tool: Search - querying corpus]"
              "Search - querying corpus" H eq_refl eq_refl)
    as (_ & _ & _ & Htwice & Hone).
  split; [exact Htwice|].
  now rewrite (Hone (messages (submitted Wire.clock))
                 (mkMessage assistant EmptyString 1 (Some []))
                 eq_refl eq_refl eq_refl).
Defined.

Lemma content_only_grows_witness :
  let s1 := streamState Wire.parse Wire.clock (submitted Wire.clock)
              [Wire.event "Hello "] in
  let s2 := processLines Wire.parse Wire.clock s1
              [Wire.event "wor"; "data: {not valid json"; Wire.event "ld"] in
  length (messages s2) = length (messages s1)
  /\ lastContent s1 = Some "Hello "
  /\ lastContent s2 = Some "Hello world"
  /\ prefixOf (assistantMessage s1) (assistantMessage s2)
  /\ lastContent (processLine Wire.parse Wire.clock s1 (Wire.event "wor"))
     = Some ("Hello " ++ "wor").
Proof.
  intros s1 s2.
  split; [reflexivity|]. split; [reflexivity|]. split; [reflexivity|].
  destruct (content_only_grows Wire.parse Wire.clock (submitted Wire.clock)
              [Wire.event "Hello "]
              [Wire.event "wor"; "data: {not valid json"; Wire.event "ld"])
    as [(old & new & _ & -> & _ & -> & Hgrow) Hstep].
  split; [exact (Hgrow eq_refl)|].
  exact (proj1 (proj2 (Hstep (Wire.event "wor") "wor"
                         eq_refl eq_refl eq_refl))).
Defined.

Lemma transport_error_is_reported_witness :
  let st := typeIdea "idea" initialState in
  let e := ErrorObject "network error" in
  let partial := [terminated (Wire.event "Hello ")] in
  Js.nonEmpty (Js.trim (researchIdea (settings st))) = true
  /\ isStreaming st = false
  /\ messages (handleSubmit Wire.parse Wire.clock
                 (Response true 200
                    (Some (map Fragment partial ++ [ReadFailure e])%list)) st)
     = [mkMessage user (userContent (settings st)) 0 None;
        mkMessage assistant "Hello " 1 (Some []);
        mkMessage system "Error: network error" 2 None]
  /\ messages (handleSubmit Wire.parse Wire.clock
                 (Response false 500 None) st)
     = [mkMessage user (userContent (settings st)) 0 None;
        mkMessage system "Error: HTTP error! status: 500" 1 None]
  /\ isStreaming (handleSubmit Wire.parse Wire.clock
                    (Response false 500 None) st) = false.
Proof.
  intros st e partial.
  split; [reflexivity|]. split; [reflexivity|].
  destruct (transport_error_is_reported Wire.parse Wire.clock st e 500 None
              partial [] eq_refl eq_refl)
    as (_ & [Hstatus Hflag] & [Hread _]).
  split; [exact Hread|]. split; [exact Hstatus | exact Hflag].
Defined.

(** Blank text after a tool call opens no message: it is added to the
    message in progress and the flag stays raised. *)
Example blank_text_after_call_is_accumulated :
  let st := processLines Wire.parse Wire.clock (opened Wire.clock)
              [Wire.event "Hello";
               Wire.event "[Calling tool: Search]";
               Wire.event " "] in
  map (fun m => (role m, content m)) (messages st)
  = [(user, userContent (settings (typeIdea "idea" initialState)));
     (assistant, "Hello ")]
  /\ hasSeenToolCalls st = true.
Proof. split; reflexivity. Qed.

(* ================================================================= *)
(** ** Runs of the form and of unusual events *)

Lemma messages_only_extend_witness :
  let st := processLine Wire.parse Wire.clock (opened Wire.clock)
              (Wire.event "Hello") in
  let lines := [Wire.event "[Calling tool: Search]"; Wire.event "Result"] in
  exists m' added,
    messages (processLines Wire.parse Wire.clock st lines)
    = (messages (submitted Wire.clock) ++ m' :: added)%list
    /\ role m' = assistant /\ timestamp m' = 1%Z
    /\ (exists more, callsOf m' = ([] ++ more)%list)
    /\ Forall (fun x => role x = assistant) added.
Proof.
  intros st lines.
  exact (messages_only_extend Wire.parse Wire.clock st lines
           (messages (submitted Wire.clock))
           (mkMessage assistant "Hello" 1 (Some [])) eq_refl).
Defined.

Lemma spinner_shown_while_streaming_witness :
  isStreaming (submitted Wire.clock) = true
  /\ showsSpinner (streamState Wire.parse Wire.clock (submitted Wire.clock)
                     [Wire.event "Hello"; "data: {not valid json";
                      Wire.event "[Calling tool: Search]"]) = true.
Proof.
  split; [reflexivity|].
  exact (spinner_shown_while_streaming Wire.parse Wire.clock
           (submitted Wire.clock) _ eq_refl).
Defined.

Lemma form_is_locked_while_streaming_witness :
  let st := streamState Wire.parse Wire.clock (submitted Wire.clock)
              [Wire.event "Hello"] in
  isStreaming (submitted Wire.clock) = true
  /\ dispatch Wire.parse Wire.clock st ClickClear = st
  /\ dispatch Wire.parse Wire.clock st (ChangeIdea "another") = st.
Proof.
  intros st. split; [reflexivity|]. split.
  - exact (proj2 (form_is_locked_while_streaming Wire.parse Wire.clock
                    (submitted Wire.clock) [Wire.event "Hello"] ClickClear
                    eq_refl)).
  - exact (proj2 (form_is_locked_while_streaming Wire.parse Wire.clock
                    (submitted Wire.clock) [Wire.event "Hello"]
                    (ChangeIdea "another") eq_refl)).
Defined.

Lemma submission_appends_a_run_witness :
  let st := typeIdea "idea" initialState in
  enabled SubmitButton st = true
  /\ exists replies tail,
       messages (handleSubmit Wire.parse Wire.clock
                   (Response true 200
                      (Some [Fragment (terminated (Wire.event "Hello"));
                             ReadFailure OtherValue])) st)
       = (messages st
          ++ mkMessage user (userContent (settings st)) 0 None
          :: replies ++ tail)%list
       /\ Forall (fun m => role m = assistant) replies
       /\ (tail = [] \/
           exists e t, tail = [mkMessage system (errorContent e) t None]).
Proof.
  intros st. split; [reflexivity|].
  exact (submission_appends_a_run Wire.parse Wire.clock _ st eq_refl).
Defined.

Lemma form_is_released_after_a_run_witness :
  let st := typeIdea "idea" initialState in
  let final := handleSubmit Wire.parse Wire.clock (FetchRejected OtherValue) st in
  enabled SubmitButton st = true
  /\ isStreaming final = false
  /\ enabled ClearButton final = true
  /\ enabled SubmitButton final = true.
Proof.
  intros st final. split; [reflexivity|].
  destruct (form_is_released_after_a_run Wire.parse Wire.clock
              (FetchRejected OtherValue) st eq_refl)
    as (H1 & _ & _ & H4 & H5).
  now repeat split.
Defined.

Lemma plus_and_minus_undo_each_other_witness :
  1 <= numHypotheses (settings initialState) < 10
  /\ decrement (increment initialState) = initialState
  /\ increment (decrement initialState) = initialState.
Proof.
  assert (H1 : 1 <= numHypotheses (settings initialState) < 10) by (cbn; lia).
  assert (H2 : 1 < numHypotheses (settings initialState) <= 10) by (cbn; lia).
  split; [exact H1|]. split.
  - exact (proj1 (plus_and_minus_undo_each_other initialState) H1).
  - exact (proj2 (plus_and_minus_undo_each_other initialState) H2).
Defined.

Lemma event_without_content_changes_nothing_witness :
  let line := Wire.eventOfDelta
                ("{" ++ Wire.quoted "role" ++ ":" ++ Wire.quoted "assistant"
                 ++ "}") in
  let st := opened Wire.clock in
  Js.startsWith line "data: " = true
  /\ Wire.parse (Js.slice 6 line)
     = Some (Json.JObj
               [("choices",
                 Json.JArr
                   [Json.JObj
                      [("delta",
                        Json.JObj [("role", Json.JStr "assistant")])]])])
  /\ processLine Wire.parse Wire.clock st line = st.
Proof.
  intros line st. split; [reflexivity|]. split; [reflexivity|].
  apply (event_without_content_changes_nothing Wire.parse Wire.clock st line
           _ eq_refl eq_refl).
  right; right.
  exists [("choices",
           Json.JArr
             [Json.JObj
                [("delta", Json.JObj [("role", Json.JStr "assistant")])]])],
         [("delta", Json.JObj [("role", Json.JStr "assistant")])], [].
  split; [reflexivity|]. split; [reflexivity|]. right.
  exists [("role", Json.JStr "assistant")]. split; [reflexivity | now left].
Defined.

Lemma scalar_content_changes_nothing_witness :
  let st := opened Wire.clock in
  eventValue Wire.parse (Wire.eventWith "42") = Some (Json.JNum "42")
  /\ processLine Wire.parse Wire.clock st (Wire.eventWith "42") = st
  /\ processLine Wire.parse Wire.clock st (Wire.eventWith "true") = st
  /\ processLine Wire.parse Wire.clock st
       (Wire.eventWith ("{" ++ Wire.quoted "text" ++ ":" ++ Wire.quoted "hi"
                        ++ "}")) = st.
Proof.
  intros st. split; [reflexivity|]. split; [|split].
  - apply (scalar_content_changes_nothing Wire.parse Wire.clock st
             (Wire.eventWith "42") (Json.JNum "42") eq_refl).
    left. now exists "42".
  - apply (scalar_content_changes_nothing Wire.parse Wire.clock st
             (Wire.eventWith "true") (Json.JBool true) eq_refl).
    right; left. now exists true.
  - apply (scalar_content_changes_nothing Wire.parse Wire.clock st
             (Wire.eventWith ("{" ++ Wire.quoted "text" ++ ":"
                              ++ Wire.quoted "hi" ++ "}"))
             (Json.JObj [("text", Json.JStr "hi")]) eq_refl).
    right; right. now exists [("text", Json.JStr "hi")].
Defined.

Lemma array_content_is_joined_witness :
  let line := Wire.eventWith ("[" ++ Wire.quoted "a" ++ "," ++ Wire.quoted "b"
                              ++ "]") in
  let st := processLine Wire.parse Wire.clock (opened Wire.clock)
              (Wire.event "Hello ") in
  eventValue Wire.parse line = Some (Json.JArr [Json.JStr "a"; Json.JStr "b"])
  /\ lastContent (processLine Wire.parse Wire.clock st line) = Some "Hello a,b".
Proof.
  intros line st. split; [reflexivity|].
  rewrite (proj2 (proj2 (array_content_is_joined Wire.parse Wire.clock st line
                           [Json.JStr "a"; Json.JStr "b"] ["a"; "b"] eq_refl))
             eq_refl eq_refl eq_refl).
  reflexivity.
Defined.

Lemma annotation_is_read_back_witness :
  Pattern.regexMatch
    ("Now " ++ Pattern.opening ++ ("Search - querying - the corpus") ++ "]"
     ++ " [later]")
  = Some "Search - querying - the corpus"
  /\ extractToolCall "Search - querying - the corpus"
     = ("Search", "querying - the corpus").
Proof.
  exact (proj1 (annotation_is_read_back "Now " "Search"
                  "querying - the corpus" " [later]"
                  eq_refl ltac:(discriminate) eq_refl eq_refl)
           ltac:(discriminate) eq_refl).
Defined.

Lemma bubble_does_not_go_back_witness :
  let s1 := streamState Wire.parse Wire.clock (submitted Wire.clock)
              [Wire.event "[Calling tool: Search]"] in
  let s2 := processLines Wire.parse Wire.clock s1
              [Wire.event "[Calling tool: Rank]"; Wire.event " "] in
  let m1 := mkMessage assistant EmptyString 1
              (Some [mkToolCall "Search" "Running..." 2]) in
  let m2 := mkMessage assistant " " 1
              (Some [mkToolCall "Search" "Running..." 2;
                     mkToolCall "Rank" "Running..." 3]) in
  lastMessage (messages s1) = Some m1
  /\ lastMessage (messages s2) = Some m2
  /\ assistantBody m1 = Placeholder "Processing research..."
  /\ assistantBody m2 <> Placeholder "Generating response...".
Proof.
  intros s1 s2 m1 m2.
  split; [reflexivity|]. split; [reflexivity|]. split; [reflexivity|].
  apply (proj2 (bubble_does_not_go_back Wire.parse Wire.clock
                  (submitted Wire.clock)
                  [Wire.event "[Calling tool: Search]"]
                  [Wire.event "[Calling tool: Rank]"; Wire.event " "]
                  m1 m2 eq_refl eq_refl eq_refl)).
  unfold m1, assistantBody. cbn. discriminate.
Defined.

(** The number input takes the integer at the head of its text, as
    [parseInt] reads it, when that integer is from 1 to 10. *)
Example changeNumber_examples :
  map (fun text => numHypotheses (settings (changeNumber text initialState)))
      ["7"; " 10"; "7.9"; "0x8"; "4 or 5"; "0"; "11"; "-3"; "abc"; "0x"]
  = [7; 10; 7; 8; 4; 3; 3; 3; 3; 3].
Proof. reflexivity. Qed.
